(** * Open vSwitch cleanup of netplan (netplan_cli/cli/ovs.py)

    A shallow embedding of [netplan_cli/cli/ovs.py]: the tag grammar
    ([clear_setting]), the three setting cleaners ([_del_col], [_del_dict],
    [_del_global]) and the two-step reconciliation ([apply_ovs_cleanup]).

    Every call of the [subprocess] module is an effect.  The program is
    written in a monad that threads the outside world (file system and
    Open vSwitch database, both opaque), may raise a Python exception, and
    records every process it starts, in order. *)

From Stdlib Require Import String Ascii List Bool ZArith Lia.
Import ListNotations.
Local Open Scope list_scope.
Local Open Scope string_scope.

(** ** Python's [str] methods used by the module *)

Module PyStr.

(** [p] is a prefix of [s]: [s.startswith(p)]. *)
Fixpoint startswith (p s : string) : bool :=
  match p, s with
  | EmptyString, _ => true
  | String a p', String b s' => Ascii.eqb a b && startswith p' s'
  | String _ _, EmptyString => false
  end.

(** [sub in s]: [sub] occurs somewhere in [s]. *)
Fixpoint contains (sub s : string) : bool :=
  startswith sub s ||
  match s with
  | EmptyString => false
  | String _ s' => contains sub s'
  end.

(** [s.split(c)] for a separator [c] of one character. *)
Fixpoint split (c : ascii) (s : string) : list string :=
  match s with
  | EmptyString => [EmptyString]
  | String a s' =>
      if Ascii.eqb a c then EmptyString :: split c s'
      else match split c s' with
           | h :: t => String a h :: t
           | [] => [String a EmptyString]
           end
  end.

(** The text before the first [c] and the text after it, when [c] occurs
    in [s]. *)
Fixpoint cut (c : ascii) (s : string) : option (string * string) :=
  match s with
  | EmptyString => None
  | String a s' =>
      if Ascii.eqb a c then Some (EmptyString, s')
      else match cut c s' with
           | Some (h, r) => Some (String a h, r)
           | None => None
           end
  end.

(** [s.split(c, maxsplit)]: at most [maxsplit] cuts, from the left. *)
Fixpoint splitn (c : ascii) (maxsplit : nat) (s : string) : list string :=
  match maxsplit with
  | O => [s]
  | S m =>
      match cut c s with
      | Some (h, r) => h :: splitn c m r
      | None => [s]
      end
  end.

Fixpoint lstrip (c : ascii) (s : string) : string :=
  match s with
  | EmptyString => EmptyString
  | String a s' => if Ascii.eqb a c then lstrip c s' else s
  end.

Fixpoint rstrip (c : ascii) (s : string) : string :=
  match s with
  | EmptyString => EmptyString
  | String a s' =>
      match rstrip c s' with
      | EmptyString => if Ascii.eqb a c then EmptyString else String a EmptyString
      | r => String a r
      end
  end.

(** [s.strip(c)] for a set [c] of one character. *)
Definition strip (c : ascii) (s : string) : string := rstrip c (lstrip c s).

(** The line boundaries of [str.splitlines] among the code points below
    256: LF, VT, FF, CR, FS, GS, RS and NEL; CR LF counts as one. *)
Definition is_linebreak (a : ascii) : bool :=
  let n := nat_of_ascii a in
  (Nat.eqb n 10 || Nat.eqb n 11 || Nat.eqb n 12 || Nat.eqb n 13 ||
   Nat.eqb n 28 || Nat.eqb n 29 || Nat.eqb n 30 || Nat.eqb n 133)%bool.

Definition CR : ascii := ascii_of_nat 13.
Definition LF : ascii := ascii_of_nat 10.

(** [s.splitlines()]: no empty last line after a final line boundary. *)
Fixpoint splitlines (s : string) : list string :=
  match s with
  | EmptyString => []
  | String a s' =>
      if is_linebreak a then
        EmptyString ::
        match s' with
        | String b s'' =>
            if Ascii.eqb a CR && Ascii.eqb b LF then splitlines s''
            else splitlines s'
        | EmptyString => []
        end
      else match splitlines s' with
           | h :: t => String a h :: t
           | [] => [String a EmptyString]
           end
  end.

(** [lst[i]]: [None] stands for [IndexError]. *)
Definition getitem (l : list string) (i : nat) : option string := nth_error l i.

End PyStr.

Import PyStr.

Definition DQUOTE : ascii := ascii_of_nat 34.

(** ** Exceptions, processes and the effect monad *)

(** The exceptions the module can raise.  [Exception] carries the
    arguments of [raise Exception('Reset command unknown for:', key)];
    [CalledProcessError] is what [check_call] and [check_output] raise on a
    non-zero exit status; [IndexError] and [ValueError] come from indexing
    and from unpacking the result of [split]; [ConfigError] stands for
    what [config_manager.parse()] may raise. *)
Inductive exn : Type :=
| OvsDbServerNotRunning (msg : string)
| OvsDbServerNotInstalled (msg : string)
| CalledProcessError (returncode : Z) (cmd : list string)
| Exception (args : list string)
| IndexError
| ValueError
| ConfigError (msg : string).

(** The exceptions of a failed index access or unpacking. *)
Definition lookup_error (e : exn) : bool :=
  match e with
  | IndexError | ValueError => true
  | _ => false
  end.

Definition crashes {A} (r : exn + A) : bool :=
  match r with
  | inl e => lookup_error e
  | inr _ => false
  end.

(** Which function of [subprocess] started a process. *)
Inductive call_kind : Type := CheckCall | CheckOutput | Run | Call.

Record event : Type := Event { ev_kind : call_kind; ev_argv : list string }.

Definition call_kind_eqb (a b : call_kind) : bool :=
  match a, b with
  | CheckCall, CheckCall | CheckOutput, CheckOutput | Run, Run | Call, Call => true
  | _, _ => false
  end.

(** In this module every command that changes the database is started
    with [subprocess.check_call], and nothing else is: listings and
    [get-*] use [check_output], [br-exists] uses [run], [show] uses
    [call]. *)
Definition mutating (e : event) : bool := call_kind_eqb (ev_kind e) CheckCall.

Definition mutations (es : list event) : list event := filter mutating es.

(** The outside world: opaque, with the two observations the module makes
    of it.  [path_exists w p] tells whether the file [p] exists;
    [spawn w argv] runs a process to completion and gives the world after
    it, its exit status and its standard output.  [import_world] is the
    world in which the module was imported. *)
Class Environment : Type := {
  World : Type;
  path_exists : World -> string -> bool;
  spawn : World -> list string -> World * (Z * string);
  import_world : World
}.

Section Ovs.

Context {env : Environment}.

Record outcome (A : Type) : Type := Outcome {
  result : exn + A;
  world_after : World;
  emitted : list event
}.
Arguments Outcome {A} _ _ _.
Arguments result {A} _.
Arguments world_after {A} _.
Arguments emitted {A} _.

Definition M (A : Type) : Type := World -> outcome A.

Definition ret {A} (a : A) : M A := fun w => Outcome (inr a) w [].

Definition raise {A} (e : exn) : M A := fun w => Outcome (inl e) w [].

Definition bind {A B} (m : M A) (f : A -> M B) : M B :=
  fun w =>
    let o := m w in
    match result o with
    | inl e => Outcome (inl e) (world_after o) (emitted o)
    | inr a =>
        let o' := f a (world_after o) in
        Outcome (result o') (world_after o') (emitted o ++ emitted o')%list
    end.

Notation "x <- c1 ;; c2" := (bind c1 (fun x => c2))
  (at level 61, c1 at next level, right associativity).
Notation "c1 ;; c2" := (bind c1 (fun _ => c2))
  (at level 61, right associativity).

(** [for x in xs: body(x)], stopping at the first exception. *)
Fixpoint for_each {A} (xs : list A) (body : A -> M unit) : M unit :=
  match xs with
  | [] => ret tt
  | x :: xs' => body x ;; for_each xs' body
  end.

(** [os.path.exists(p)] *)
Definition os_path_exists (p : string) : M bool :=
  fun w => Outcome (inr (path_exists w p)) w [].

(** Start [argv], wait for it, record it. *)
Definition start (k : call_kind) (argv : list string) : M (Z * string) :=
  fun w => let '(w', r) := spawn w argv in Outcome (inr r) w' [Event k argv].

(** [subprocess.call(argv)] and [subprocess.run(argv).returncode] *)
Definition subprocess_call (argv : list string) : M Z :=
  r <- start Call argv ;; ret (fst r).

Definition subprocess_run (argv : list string) : M Z :=
  r <- start Run argv ;; ret (fst r).

(** [subprocess.check_call(argv)] *)
Definition check_call (argv : list string) : M unit :=
  r <- start CheckCall argv ;;
  if Z.eqb (fst r) 0 then ret tt else raise (CalledProcessError (fst r) argv).

(** [subprocess.check_output(argv, text=True)] *)
Definition check_output (argv : list string) : M string :=
  r <- start CheckOutput argv ;;
  if Z.eqb (fst r) 0 then ret (snd r) else raise (CalledProcessError (fst r) argv).

(** ** Module constants *)

Definition OPENVSWITCH_OVS_VSCTL : string := "ovs-vsctl".

Definition DEFAULTS : list (string * string) :=
  [ ("mcast_snooping_enable", "false");
    ("rstp_enable", "false") ].

Definition GLOBALS : list (string * (string * string)) :=
  [ ("set-ssl", ("del-ssl", "get-ssl"));
    ("set-fail-mode", ("del-fail-mode", "get-fail-mode"));
    ("set-controller", ("del-controller", "get-controller")) ].

(** [d.get(k)] on a dict written as its list of items. *)
Fixpoint dict_get {V} (d : list (string * V)) (k : string) : option V :=
  match d with
  | [] => None
  | (k', v) :: d' => if String.eqb k k' then Some v else dict_get d' k
  end.

(** Truth value of a [str] or [None]. *)
Definition truthy (o : option string) : bool :=
  match o with
  | None | Some EmptyString => false
  | Some _ => true
  end.

(** [_ovs_vsctl_path()], evaluated in the world [w]. *)
Definition _ovs_vsctl_path (w : World) : string :=
  if path_exists w ("/snap/bin/" ++ OPENVSWITCH_OVS_VSCTL)
  then "/snap/bin/" ++ OPENVSWITCH_OVS_VSCTL
  else "/usr/bin/" ++ OPENVSWITCH_OVS_VSCTL.

(** The world in which the module was imported fixes [OVS_VSCTL_PATH]. *)
Definition OVS_VSCTL_PATH : string := _ovs_vsctl_path import_world.

Definition _ovs_installed : M bool := os_path_exists OVS_VSCTL_PATH.

Definition _ovs_active : M bool :=
  rc <- subprocess_call [OVS_VSCTL_PATH; "show"] ;; ret (Z.eqb rc 0).

(** ** The setting cleaners *)

(** [_del_col(type, iface, column, value)]; [logging.debug] has no effect
    on the database and is left out. *)
Definition _del_col (type iface column value : string) : M unit :=
  let default := dict_get DEFAULTS column in
  match default with
  | None =>
      check_call [OVS_VSCTL_PATH; "remove"; type; iface; column; value]
  | Some d =>
      if truthy default && negb (String.eqb d value) then
        check_call [OVS_VSCTL_PATH; "set"; type; iface; column ++ "=" ++ d]
      else ret tt
  end.

(** [_del_dict(type, iface, column, key, value)] *)
Definition _del_dict (type iface column key value : string) : M unit :=
  check_call [OVS_VSCTL_PATH; "remove"; type; iface; column;
              key ++ "=" ++ String DQUOTE (value ++ String DQUOTE EmptyString)].

(** [iface] appended when it is neither [None] nor empty. *)
Definition with_iface (args : list string) (iface : option string) : list string :=
  match iface with
  | Some i => if truthy iface then (args ++ [i])%list else args
  | None => args
  end.

(** Argument vector of the global command [cmd] of a tag whose delete
    command is [del_cmd]: the object is dropped for [del-ssl]. *)
Definition global_argv (cmd del_cmd iface : string) : list string :=
  with_iface [OVS_VSCTL_PATH; cmd]
             (if String.eqb del_cmd "del-ssl" then None else Some iface).

(** [_del_global(type, iface, key, value)] *)
Definition _del_global (type iface key value : string) : M unit :=
  let '(del_cmd, get_cmd) :=
    match dict_get GLOBALS key with
    | Some (d, g) => (Some d, Some g)
    | None => (None, None)
    end in
  let iface := match del_cmd with
               | Some d => if String.eqb d "del-ssl" then None else Some iface
               | None => Some iface
               end in
  match del_cmd, get_cmd with
  | Some d, Some g =>
      if truthy del_cmd then
        let args_get := with_iface [OVS_VSCTL_PATH; g] iface in
        let args_del := with_iface [OVS_VSCTL_PATH; d] iface in
        out <- check_output args_get ;;
        if forallb (fun item => contains item out) (split "," value)
        then check_call args_del
        else ret tt
      else raise (Exception ["Reset command unknown for:"; key])
  | _, _ => raise (Exception ["Reset command unknown for:"; key])
  end.

(** The value-level part of [clear_setting]: the split of the tag key and
    the [if]/[elif]/[else] that picks the cleaner. *)
Definition clear_value (type iface setting value : string) : M unit :=
  let split := splitn "/" 2 setting in
  match getitem split 1 with
  | None => raise IndexError
  | Some col =>
      if String.eqb col "global" && Nat.ltb 2 (length split) then
        match getitem split 2 with
        | Some k => _del_global type iface k value
        | None => raise IndexError
        end
      else if Nat.ltb 2 (length split) then
        match getitem split 2 with
        | Some k => _del_dict type iface col k value
        | None => raise IndexError
        end
      else _del_col type iface col value
  end.

(** The last statement of [clear_setting]: forget the tag itself. *)
Definition remove_tag (type iface setting : string) : list string :=
  [OVS_VSCTL_PATH; "remove"; type; iface; "external-ids"; setting].

(** [clear_setting(type, iface, setting, value)] *)
Definition clear_setting (type iface setting value : string) : M unit :=
  clear_value type iface setting value ;;
  check_call (remove_tag type iface setting).

(** ** The declared configuration *)

Record NetplanDefinition : Type := { backend : string }.

(** [config_manager]: [parse()] reads the configuration files and fills
    [netdefs], or raises; it starts no process. *)
Record ConfigurationManager : Type := {
  parse : World -> exn + list (string * NetplanDefinition)
}.

Definition config_parse (cm : ConfigurationManager)
  : M (list (string * NetplanDefinition)) :=
  fun w => Outcome (parse cm w) w [].

(** [is_ovs_interface(iface, np_interface_dict)] *)
Definition is_ovs_interface (iface : string)
    (np_interface_dict : list (string * NetplanDefinition)) : bool :=
  match dict_get np_interface_dict iface with
  | Some np_def => String.eqb (backend np_def) "OpenVSwitch"
  | None => false
  end.

(** The set [ovs_ifaces], as the list of its members. *)
Definition declared_ovs_ifaces (netdefs : list (string * NetplanDefinition))
  : list string :=
  filter (fun i => is_ovs_interface i netdefs) (map fst netdefs).

Definition in_set (x : string) (s : list string) : bool :=
  existsb (String.eqb x) s.

(** ** The reconciliation engine *)

(** The listing of table [t] with the columns [cols]. *)
Definition list_cmd (cols t : string) : list string :=
  [OVS_VSCTL_PATH; "--columns=" ++ cols; "-f"; "csv"; "-d"; "bare";
   "--no-headings"; "list"; t].

Definition step1_tables : list (string * string) :=
  [("Port", "del-port"); ("Bridge", "del-br"); ("Interface", "del-br")].

(** Step 1, body of the loop over the lines of one listing. *)
Definition step1_line (t : string * string) (ovs_ifaces : list string)
    (line : string) : M unit :=
  if contains "netplan=true" line then
    match getitem (split "," line) 0 with
    | None => raise IndexError
    | Some iface =>
        if in_set iface ovs_ifaces then ret tt
        else
          not_a_bridge <-
            (if String.eqb (fst t) "Interface" then
               rc <- subprocess_run [OVS_VSCTL_PATH; "br-exists"; iface] ;;
               ret (Z.ltb 0 rc)
             else ret false) ;;
          if not_a_bridge then
            check_call [OVS_VSCTL_PATH; "--if-exists"; "del-bond-iface"; iface]
          else
            check_call [OVS_VSCTL_PATH; "--if-exists"; snd t; iface]
    end
  else ret tt.

(** Step 1, body of the loop over the tables. *)
Definition step1_table (ovs_ifaces : list string) (t : string * string) : M unit :=
  out <- check_output (list_cmd "name,external-ids" (fst t)) ;;
  for_each (splitlines out) (step1_line t ovs_ifaces).

Definition step1 (ovs_ifaces : list string) : M unit :=
  for_each step1_tables (step1_table ovs_ifaces).

Definition step2_tables : list string :=
  ["Port"; "Bridge"; "Interface"; "Open_vSwitch"; "Controller"].

Definition step2_cols (t : string) : string :=
  if String.eqb t "Open_vSwitch" then "external-ids"
  else if String.eqb t "Controller" then "_uuid,external-ids"
  else "name,external-ids".

(** Step 2, body of the loop over the entries of one row. *)
Definition step2_entry (t iface entry : string) : M unit :=
  if startswith "netplan/" entry && contains "=" entry then
    match splitn "=" 1 entry with
    | [setting; val] => clear_setting t iface setting val
    | _ => raise ValueError
    end
  else ret tt.

(** Step 2, body of the loop over the lines of one listing. *)
Definition step2_line (t line : string) : M unit :=
  if contains "netplan/" line then
    row <- (if negb (String.eqb t "Open_vSwitch") then
              match splitn "," 1 line with
              | [iface; extids] => ret (iface, extids)
              | _ => raise ValueError
              end
            else ret (".", line)) ;;
    for_each (split " " (strip DQUOTE (snd row))) (step2_entry t (fst row))
  else ret tt.

(** Step 2, body of the loop over the tables. *)
Definition step2_table (t : string) : M unit :=
  out <- check_output (list_cmd (step2_cols t) t) ;;
  for_each (splitlines out) (step2_line t).

Definition step2 : M unit := for_each step2_tables step2_table.

(** [apply_ovs_cleanup(config_manager, ovs_old, ovs_current)]; the last
    two arguments are not used by the function. *)
Definition apply_ovs_cleanup {A B : Type} (config_manager : ConfigurationManager)
    (ovs_old : A) (ovs_current : B) : M unit :=
  installed <- _ovs_installed ;;
  if negb installed then
    raise (OvsDbServerNotInstalled
             "Cannot apply OpenvSwitch cleanup: ovs-vsctl is 'not-found'")
  else
    active <- _ovs_active ;;
    if negb active then
      raise (OvsDbServerNotRunning "OpenvSwitch database is not running")
    else
      netdefs <- config_parse config_manager ;;
      let ovs_ifaces := declared_ovs_ifaces netdefs in
      step1 ovs_ifaces ;;
      step2.

End Ovs.

Arguments Outcome {env A} _ _ _.
Arguments result {env A} _.
Arguments world_after {env A} _.
Arguments emitted {env A} _.

Notation "x <- c1 ;; c2" := (bind c1 (fun x => c2))
  (at level 61, c1 at next level, right associativity).
Notation "c1 ;; c2" := (bind c1 (fun _ => c2))
  (at level 61, right associativity).

(** ** Reading a run *)

Section Reading.

Context {env : Environment}.

(** The commands of a run that only read: the probe and the listings. *)
Definition is_query (argv : list string) : Prop :=
  argv = [OVS_VSCTL_PATH; "show"] \/ exists cols t, argv = list_cmd cols t.

(** The worlds a run can pass through while it only reads. *)
Inductive queried (w : World) : World -> Prop :=
| queried_here : queried w w
| queried_next (w' : World) (argv : list string) :
    queried w w' -> is_query argv -> queried w (fst (spawn w' argv)).

(** No line of the listing [out] is a row marked [netplan=true] whose
    name is outside [ovs_ifaces]. *)
Definition stale_free (ovs_ifaces : list string) (out : string) : bool :=
  forallb (fun line =>
             negb (contains "netplan=true" line)
             || match getitem (split "," line) 0 with
                | Some iface => in_set iface ovs_ifaces
                | None => true
                end)
          (splitlines out).

(** No line of the listing [out] holds a [netplan/] tag. *)
Definition tag_free (out : string) : bool :=
  forallb (fun line => negb (contains "netplan/" line)) (splitlines out).

(** Every listing that the world [w] answers, now or after further
    reads, shows nothing stale and no tag. *)
Definition settled (ovs_ifaces : list string) (w : World) : Prop :=
  forall w', queried w w' ->
  forall cols t,
    stale_free ovs_ifaces (snd (snd (spawn w' (list_cmd cols t)))) = true
    /\ tag_free (snd (snd (spawn w' (list_cmd cols t)))) = true.

(** The deletions of a run, each with the table of the listing that was
    read last before it. *)
Fixpoint deletions_by_table (current : string) (es : list event)
  : list (string * list string) :=
  match es with
  | [] => []
  | e :: es' =>
      match ev_kind e with
      | CheckOutput => deletions_by_table (last (ev_argv e) current) es'
      | CheckCall => (current, ev_argv e) :: deletions_by_table current es'
      | _ => deletions_by_table current es'
      end
  end.

(** The deletion of [iface] that step 1 uses for the table [t]. *)
Definition deletes (t : string * string) (argv : list string) : Prop :=
  exists iface,
    argv = [OVS_VSCTL_PATH; "--if-exists"; snd t; iface]
    \/ (fst t = "Interface"
        /\ argv = [OVS_VSCTL_PATH; "--if-exists"; "del-bond-iface"; iface]).

End Reading.

(** ** A small database to run the engine on *)

Module FakeDb.

Record row : Type := Row {
  r_table : string;
  r_name : string;
  r_external_ids : list string
}.

(** The binary may be missing and the server may be down; a read-only
    server refuses every change with exit status 1.  [globals] holds the
    settings behind [get-ssl], [get-fail-mode] and [get-controller]. *)
Record state : Type := State {
  installed : bool;
  running : bool;
  read_only : bool;
  globals : list (string * string);
  rows : list row
}.

Fixpoint join (sep : string) (l : list string) : string :=
  match l with
  | [] => EmptyString
  | [x] => x
  | x :: l' => x ++ sep ++ join sep l'
  end.

Definition quoted (cell : string) : string :=
  if contains " " cell then String DQUOTE (cell ++ String DQUOTE EmptyString)
  else cell.

Definition render (r : row) : string :=
  (if String.eqb (r_table r) "Open_vSwitch" then EmptyString
   else r_name r ++ ",")
  ++ quoted (join " " (r_external_ids r)) ++ String LF EmptyString.

Definition in_table (t : string) (r : row) : bool := String.eqb (r_table r) t.

Definition is_row (t name : string) (r : row) : bool :=
  in_table t r && String.eqb (r_name r) name.

Definition listing (t : string) (rs : list row) : string :=
  String.concat EmptyString (map render (filter (in_table t) rs)).

Definition delete (t name : string) (rs : list row) : list row :=
  filter (fun r => negb (is_row t name r)) rs.

(** [remove] takes a key, or a pair [key="value"]. *)
Definition names_entry (arg entry : string) : bool :=
  match cut "=" arg with
  | Some (k, v) => String.eqb entry (k ++ "=" ++ strip DQUOTE v)
  | None => startswith (arg ++ "=") entry
  end.

Definition forget (t name arg : string) (rs : list row) : list row :=
  map (fun r =>
         if is_row t name r then
           Row t name (filter (fun e => negb (names_entry arg e))
                              (r_external_ids r))
         else r)
      rs.

Definition failed (s : state) : state * (Z * string) := (s, (1%Z, EmptyString)).

Definition ok (s : state) (out : string) : state * (Z * string) :=
  (s, (0%Z, out)).

Definition write (s : state) (gs : list (string * string)) (rs : list row)
  : state * (Z * string) :=
  if read_only s then failed s
  else ok (State (installed s) (running s) false gs rs) EmptyString.

(** [get-x] and [del-x] on the global setting [x]. *)
Definition global (s : state) (cmd : string) : state * (Z * string) :=
  let x := substring 4 (String.length cmd - 4) cmd in
  if startswith "get-" cmd then
    ok s (match dict_get (globals s) x with Some v => v | None => EmptyString end)
  else if startswith "del-" cmd then
    write s (filter (fun g => negb (String.eqb (fst g) x)) (globals s)) (rows s)
  else failed s.

(** The commands of [ovs-vsctl] that the module uses. *)
Definition ovs_vsctl (s : state) (argv : list string) : state * (Z * string) :=
  if negb (installed s && running s) then failed s else
  match argv with
  | [_; cmd] =>
      if String.eqb cmd "show" then ok s EmptyString else global s cmd
  | [_; cmd; name] =>
      if String.eqb cmd "br-exists" then
        (s, ((if existsb (is_row "Bridge" name) (rows s) then 0 else 2)%Z,
             EmptyString))
      else global s cmd
  | [_; opt; cmd; name] =>
      if String.eqb cmd "del-port"
      then write s (globals s) (delete "Port" name (rows s))
      else if String.eqb cmd "del-br"
      then write s (globals s) (delete "Bridge" name (rows s))
      else if String.eqb cmd "del-bond-iface"
      then write s (globals s) (delete "Interface" name (rows s))
      else failed s
  | [_; cmd; t; name; assignment] => write s (globals s) (rows s)
  | [_; cmd; t; name; column; arg] =>
      if String.eqb cmd "remove" && String.eqb column "external-ids"
      then write s (globals s) (forget t name arg (rows s))
      else write s (globals s) (rows s)
  | [_; _; _; _; _; _; _; cmd; t] => ok s (listing t (rows s))
  | _ => failed s
  end.

Definition database (gs : list (string * string)) (rs : list row) : state :=
  State true true false gs rs.

#[local] Instance env : Environment := {|
  World := state;
  path_exists := fun s p => installed s && String.eqb p "/usr/bin/ovs-vsctl";
  spawn := ovs_vsctl;
  import_world := database [] []
|}.

(** A configuration that declares [names], all with the Open vSwitch
    backend. *)
Definition declares (names : list string) : ConfigurationManager :=
  {| parse := fun _ =>
       inr (map (fun n => (n, {| backend := "OpenVSwitch" |})) names) |}.

(** The whole run on the database [s]. *)
Definition cleanup (names : list string) (s : state) : outcome unit :=
  apply_ovs_cleanup (declares names) tt tt s.

(** A stale bridge, a stale port and a stale interface. *)
Definition stack : state :=
  database [] [ Row "Bridge" "b0" ["netplan=true"];
                Row "Port" "p0" ["netplan=true"];
                Row "Interface" "i0" ["netplan=true"] ].

(** The bridges [ovs0] (declared, with tagged settings), [ovs1] (stale)
    and [legacy0] (not created by netplan). *)
Definition bridges : state :=
  database [("fail-mode", "standalone")]
    [ Row "Bridge" "ovs0"
          ["iface-id=myhostname"; "netplan=true";
           "netplan/external-ids/iface-id=myhostname";
           "netplan/global/set-fail-mode=standalone";
           "netplan/mcast_snooping_enable=true"];
      Row "Bridge" "ovs1" ["netplan=true"];
      Row "Bridge" "legacy0" ["owner=someone-else"] ].

(** Two controllers were set; one is left. *)
Definition both_controllers : state :=
  database [("controller",
             "tcp:127.0.0.1:1337" ++ String LF "unix:/some/socket")] [].

Definition one_controller : state :=
  database [("controller", "tcp:127.0.0.1:1337")] [].

(** A read-only database with a stale port. *)
Definition frozen : state :=
  State true true true [] [ Row "Port" "p1" ["netplan=true"] ].

(** A bridge of another tool, whose only entry ends in the marker. *)
Definition foreign : state :=
  database [] [ Row "Bridge" "br9" ["not-netplan=true"] ].

Definition not_installed : state := State false false false [] [].

Definition not_running : state := State true false false [] [].

End FakeDb.

(** ** The commands and the failures of a run *)

Section Vocabulary.

Context {env : Environment}.

(** How a computation may end: normally; with a [CalledProcessError]
    that carries a non-zero status and the command started last; or
    with one of the exceptions in [allowed]. *)
Definition fails_within {A} (allowed : exn -> Prop) (o : outcome A) : Prop :=
  match result o with
  | inr _ => True
  | inl (CalledProcessError rc cmd) =>
      rc <> 0%Z /\ exists es k, emitted o = (es ++ [Event k cmd])%list
  | inl e => allowed e
  end.

Definition no_other_error (e : exn) : Prop := False.

(** The other exceptions of step 2: a row without a comma, and a global
    tag whose key has no entry in [GLOBALS]. *)
Definition step2_error (e : exn) : Prop :=
  e = ValueError
  \/ exists key, dict_get GLOBALS key = None
                 /\ e = Exception ["Reset command unknown for:"; key].

(** The processes of step 1. *)
Inductive step1_event : event -> Prop :=
| step1_listing (t : string * string) :
    In t step1_tables ->
    step1_event (Event CheckOutput (list_cmd "name,external-ids" (fst t)))
| step1_probe (iface : string) :
    step1_event (Event Run [OVS_VSCTL_PATH; "br-exists"; iface])
| step1_deletion (cmd iface : string) :
    In cmd ["del-port"; "del-br"; "del-bond-iface"] ->
    step1_event (Event CheckCall [OVS_VSCTL_PATH; "--if-exists"; cmd; iface]).

(** The processes of step 2. *)
Inductive step2_event : event -> Prop :=
| step2_listing (t : string) :
    In t step2_tables ->
    step2_event (Event CheckOutput (list_cmd (step2_cols t) t))
| step2_remove (t iface column value : string) :
    step2_event (Event CheckCall [OVS_VSCTL_PATH; "remove"; t; iface; column; value])
| step2_set (t iface assignment : string) :
    step2_event (Event CheckCall [OVS_VSCTL_PATH; "set"; t; iface; assignment])
| step2_fetch (key d g iface : string) :
    dict_get GLOBALS key = Some (d, g) ->
    step2_event (Event CheckOutput (global_argv g d iface))
| step2_delete (key d g iface : string) :
    dict_get GLOBALS key = Some (d, g) ->
    step2_event (Event CheckCall (global_argv d d iface)).

(** A listing is a [check_output] of a [list] command. *)
Definition is_listing (e : event) : bool :=
  call_kind_eqb (ev_kind e) CheckOutput
  && String.eqb (nth 7 (ev_argv e) EmptyString) "list".

(** The tables listed by a run, in the order of the listings. *)
Definition listed_tables (es : list event) : list string :=
  map (fun e => last (ev_argv e) EmptyString) (filter is_listing es).

End Vocabulary.

(** Further databases: a stale interface that is itself a bridge (a VLAN
    fake bridge), and a controller row with a tagged setting. *)
Definition fake_bridge : FakeDb.state :=
  FakeDb.database []
    [ FakeDb.Row "Bridge" "br0.100" [];
      FakeDb.Row "Interface" "br0.100" ["netplan=true"] ].

Definition tagged_switch : FakeDb.state :=
  FakeDb.database [("ssl", "Private key: /k.pem")]
    [ FakeDb.Row "Open_vSwitch" "."
        ["netplan/global/set-ssl=/k.pem"; "netplan/other_config/a,b=c,d"] ].

(** A world that is only the answer to: is there a binary under
    [/snap/bin]?  There was none when the module was imported, there is
    never one under [/usr/bin], and every process succeeds silently. *)
Definition late_snap : Environment := {|
  World := bool;
  path_exists := fun snap p => snap && String.eqb p "/snap/bin/ovs-vsctl";
  spawn := fun snap _ => (snap, (0%Z, EmptyString));
  import_world := false
|}.

(** ** What the module reads of the database, and what it asks of it *)

Section Laws.

Context {env : Environment}.













End Laws.

(** A database of two bridges: [ovs0], marked and with one tagged
    setting, and [ovs1], marked.  Each row and the tag may be gone.
    Every process exits with 0; [del-br] removes the bridge it names and
    the removal of the tag removes it. *)
Module Mini.

Record state : Type := State { ovs0 : bool; ovs1 : bool; tag : bool }.

Definition line0 (s : state) : string :=
  if ovs0 s then
    (if tag s
     then "ovs0," ++ String DQUOTE ("netplan=true netplan/rstp_enable=true"
                                    ++ String DQUOTE EmptyString)
     else "ovs0,netplan=true") ++ String LF EmptyString
  else EmptyString.

Definition line1 (s : state) : string :=
  if ovs1 s then "ovs1,netplan=true" ++ String LF EmptyString else EmptyString.

Definition bridges (s : state) : string := line0 s ++ line1 s.

(** [argv] is the deletion of the bridge [name]. *)
Definition is_del_br (argv : list string) (name : string) : bool :=
  match argv with
  | [_; _; cmd; n] => String.eqb cmd "del-br" && String.eqb n name
  | _ => false
  end.

(** [argv] is the removal of the tag of [ovs0]. *)
Definition is_untag (argv : list string) : bool :=
  match argv with
  | [_; cmd; t; iface; column; key] =>
      String.eqb cmd "remove" && String.eqb t "Bridge" && String.eqb iface "ovs0"
      && String.eqb column "external-ids" && String.eqb key "netplan/rstp_enable"
  | _ => false
  end.

Definition output (s : state) (argv : list string) : string :=
  match argv with
  | [_; _; _; _; _; _; _; _; t] =>
      if String.eqb t "Bridge" then bridges s else EmptyString
  | _ => EmptyString
  end.

Definition ovs_vsctl (s : state) (argv : list string) : state * (Z * string) :=
  (State (ovs0 s && negb (is_del_br argv "ovs0"))
         (ovs1 s && negb (is_del_br argv "ovs1"))
         (tag s && negb (is_untag argv)),
   (0%Z, output s argv)).

Definition env : Environment := {|
  World := state;
  path_exists := fun _ p => String.eqb p "/usr/bin/ovs-vsctl";
  spawn := ovs_vsctl;
  import_world := State true true true
|}.

(** The configuration declares [ovs0]. *)
Definition config : @ConfigurationManager env :=
  {| parse := fun _ => inr [("ovs0", {| backend := "OpenVSwitch" |})] |}.

Definition cleanup (s : state) : @outcome env unit :=
  @apply_ovs_cleanup env unit unit config tt tt s.

End Mini.


(** ** Properties of the string functions *)

Lemma startswith_app (p s : string) :
  startswith p s = true -> exists r, s = p ++ r.
Proof.
  revert s. induction p as [|a p IH]; intros s H.
  - exists s. reflexivity.
  - destruct s as [|b s]; [discriminate|]. simpl in H.
    apply andb_true_iff in H. destruct H as [Hab Hps].
    apply Ascii.eqb_eq in Hab. subst b.
    destruct (IH _ Hps) as [r ->]. exists r. reflexivity.
Qed.

Lemma cut_of_contains (c : ascii) (s : string) :
  contains (String c EmptyString) s = true ->
  exists h r, cut c s = Some (h, r) /\ s = h ++ String c r.
Proof.
  induction s as [|a s IH]; intros H.
  - discriminate.
  - simpl in H. simpl. rewrite (Ascii.eqb_sym a c).
    destruct (Ascii.eqb_spec c a) as [->|Hne].
    + exists EmptyString, s. split; reflexivity.
    + simpl in H. destruct (IH H) as (h & r & Hc & ->).
      rewrite Hc. exists (String a h), r. split; reflexivity.
Qed.

Lemma splitn_length_le (c : ascii) (n : nat) (s : string) :
  length (splitn c n s) <= S n.
Proof.
  revert s. induction n as [|n IH]; intros s; simpl.
  - lia.
  - destruct (cut c s) as [[h r]|]; simpl.
    + specialize (IH r). lia.
    + lia.
Qed.

Lemma splitn_length_pos (c : ascii) (n : nat) (s : string) :
  1 <= length (splitn c n s).
Proof.
  destruct n; simpl; [lia|].
  destruct (cut c s) as [[h r]|]; simpl; lia.
Qed.

(** A token that starts with the tag prefix and holds an equals sign
    splits into a key that still starts with the prefix, and a value. *)
Lemma tag_token_shape (entry : string) :
  startswith "netplan/" entry = true ->
  contains "=" entry = true ->
  exists setting val,
    entry = setting ++ "=" ++ val
    /\ splitn "=" 1 entry = [setting; val]
    /\ startswith "netplan/" setting = true.
Proof.
  intros Hp Hc.
  destruct (cut_of_contains _ _ Hc) as (h & r & Hcut & He).
  exists h, r. split; [exact He|]. split.
  - simpl. rewrite Hcut. reflexivity.
  - destruct (startswith_app _ _ Hp) as [rest Hr].
    rewrite Hr in Hcut. simpl in Hcut.
    destruct (cut "=" rest) as [[h' r']|]; [|discriminate].
    injection Hcut as <- _. reflexivity.
Qed.

Lemma tag_key_parts (setting : string) :
  startswith "netplan/" setting = true ->
  2 <= length (splitn "/" 2 setting).
Proof.
  intros Hp. destruct (startswith_app _ _ Hp) as [rest ->].
  change (splitn "/" 2 ("netplan/" ++ rest)) with ("netplan" :: splitn "/" 1 rest).
  pose proof (splitn_length_pos "/" 1 rest). cbn [length]. lia.
Qed.

Section OvsProperties.

Context {env : Environment}.

(** ** Properties of the effect monad *)

Lemma mutations_app (xs ys : list event) :
  mutations (xs ++ ys) = (mutations xs ++ mutations ys)%list.
Proof. unfold mutations. apply filter_app. Qed.

Lemma bind_ok {A B} (m : M A) (f : A -> M B) (w : World) (a : A) :
  result (m w) = inr a ->
  bind m f w = Outcome (result (f a (world_after (m w))))
                       (world_after (f a (world_after (m w))))
                       (emitted (m w) ++ emitted (f a (world_after (m w))))%list.
Proof. intros H. unfold bind. rewrite H. reflexivity. Qed.

Lemma bind_err {A B} (m : M A) (f : A -> M B) (w : World) (e : exn) :
  result (m w) = inl e ->
  bind m f w = Outcome (inl e) (world_after (m w)) (emitted (m w)).
Proof. intros H. unfold bind. rewrite H. reflexivity. Qed.

Lemma check_call_emitted (argv : list string) (w : World) :
  emitted (check_call argv w) = [Event CheckCall argv].
Proof.
  unfold check_call, bind, start.
  destruct (spawn w argv) as [w' [rc out]]. simpl.
  destruct (Z.eqb rc 0); reflexivity.
Qed.

Lemma check_output_ok (argv : list string) (w w' : World) (out : string) :
  spawn w argv = (w', (0%Z, out)) ->
  check_output argv w = Outcome (inr out) w' [Event CheckOutput argv].
Proof.
  intros H. unfold check_output, bind, start. rewrite H. reflexivity.
Qed.

Lemma dict_get_DEFAULTS (column d : string) :
  dict_get DEFAULTS column = Some d -> d = "false".
Proof.
  unfold DEFAULTS. simpl.
  destruct (String.eqb column "mcast_snooping_enable"); [congruence|].
  destruct (String.eqb column "rstp_enable"); congruence.
Qed.

(** ** The setting cleaners *)

(** C2. Default-aware scalar reversal: [_del_col] starts exactly one
    [remove] with the recorded value when the column has no default,
    exactly one [set column=default] when the default differs from the
    recorded value, and nothing when the recorded value is the default. *)
Theorem del_col_default_aware (type iface column value : string) (w : World) :
  (dict_get DEFAULTS column = None ->
     emitted (_del_col type iface column value w)
     = [Event CheckCall [OVS_VSCTL_PATH; "remove"; type; iface; column; value]])
  /\ (forall d, dict_get DEFAULTS column = Some d -> d <> value ->
     emitted (_del_col type iface column value w)
     = [Event CheckCall [OVS_VSCTL_PATH; "set"; type; iface; column ++ "=" ++ d]])
  /\ (forall d, dict_get DEFAULTS column = Some d -> d = value ->
     _del_col type iface column value w = Outcome (inr tt) w []).
Proof.
  unfold _del_col. repeat split.
  - intros H. rewrite H. apply check_call_emitted.
  - intros d H Hne. rewrite H.
    pose proof (dict_get_DEFAULTS _ _ H) as Hd. subst d.
    destruct (String.eqb_spec "false" value) as [E|E]; [contradiction|].
    cbn [truthy andb negb]. apply check_call_emitted.
  - intros d H He. rewrite H.
    pose proof (dict_get_DEFAULTS _ _ H) as Hd. subst d. subst value.
    rewrite String.eqb_refl. reflexivity.
Qed.

Lemma dict_get_GLOBALS (key d g : string) :
  dict_get GLOBALS key = Some (d, g) ->
  (d, g) = ("del-ssl", "get-ssl")
  \/ (d, g) = ("del-fail-mode", "get-fail-mode")
  \/ (d, g) = ("del-controller", "get-controller").
Proof.
  unfold GLOBALS. simpl.
  destruct (String.eqb key "set-ssl"); [intros [= <- <-]; auto|].
  destruct (String.eqb key "set-fail-mode"); [intros [= <- <-]; auto|].
  destruct (String.eqb key "set-controller"); [intros [= <- <-]; auto|].
  discriminate.
Qed.

(** With a known key, [_del_global] is the fetch followed by the guarded
    delete. *)
Lemma del_global_known (type iface key value d g : string) :
  dict_get GLOBALS key = Some (d, g) ->
  _del_global type iface key value
  = (out <- check_output (global_argv g d iface) ;;
     if forallb (fun item => contains item out) (split "," value)
     then check_call (global_argv d d iface)
     else ret tt).
Proof.
  intros H. unfold _del_global. rewrite H.
  destruct (dict_get_GLOBALS _ _ _ H) as [E|[E|E]]; injection E as -> ->;
    reflexivity.
Qed.

Lemma del_global_unknown (type iface key value : string) (w : World) :
  dict_get GLOBALS key = None ->
  _del_global type iface key value w
  = Outcome (inl (Exception ["Reset command unknown for:"; key])) w [].
Proof. intros H. unfold _del_global. rewrite H. reflexivity. Qed.

(** What [_del_global] does with a known key once the fetch succeeded. *)
Lemma del_global_fetched (type iface key value d g out : string) (w w' : World) :
  dict_get GLOBALS key = Some (d, g) ->
  spawn w (global_argv g d iface) = (w', (0%Z, out)) ->
  let o := _del_global type iface key value w in
  let all_present := forallb (fun item => contains item out) (split "," value) in
  emitted o
  = Event CheckOutput (global_argv g d iface)
    :: (if all_present then [Event CheckCall (global_argv d d iface)] else [])
  /\ (all_present = false ->
      o = Outcome (inr tt) w' [Event CheckOutput (global_argv g d iface)]).
Proof.
  intros Hk Hget o all_present.
  subst o. rewrite (del_global_known _ _ _ _ _ _ Hk).
  rewrite (bind_ok _ _ _ out); rewrite (check_output_ok _ _ _ _ Hget);
    [|reflexivity].
  cbn [emitted world_after result].
  fold all_present. destruct all_present.
  - rewrite check_call_emitted. split; [reflexivity|discriminate].
  - split; reflexivity.
Qed.

(** C3. Global partial-match guard: with a known key and a successful
    fetch, the delete command is started if and only if every token of
    the recorded value, split on the comma, occurs in the fetched text;
    when a token is missing nothing but the fetch is started and no
    exception is raised. *)
Theorem del_global_partial_match_guard
    (type iface key value d g out : string) (w w' : World) :
  dict_get GLOBALS key = Some (d, g) ->
  spawn w (global_argv g d iface) = (w', (0%Z, out)) ->
  let o := _del_global type iface key value w in
  let all_present := forallb (fun item => contains item out) (split "," value) in
  emitted o
  = Event CheckOutput (global_argv g d iface)
    :: (if all_present then [Event CheckCall (global_argv d d iface)] else [])
  /\ (In (Event CheckCall (global_argv d d iface)) (emitted o)
      <-> forall item, In item (split "," value) -> contains item out = true)
  /\ (all_present = false ->
      o = Outcome (inr tt) w' [Event CheckOutput (global_argv g d iface)]).
Proof.
  intros Hk Hget o all_present.
  pose proof (del_global_fetched type iface key value d g out w w' Hk Hget) as Ho.
  cbv zeta in Ho. fold o all_present in Ho.
  destruct Ho as [He Hf]. split; [exact He|]. split; [|exact Hf].
  rewrite He. subst all_present. rewrite <- forallb_forall.
  destruct (forallb _ _); simpl; split; intro H; auto.
  - destruct H as [H|[]]. discriminate.
  - discriminate.
Qed.

(** C8. Unknown global key is fatal: [_del_global] raises and starts no
    process, and [clear_setting] on such a tag raises the same exception
    without starting the fetch, the delete or the removal of the tag. *)
Theorem unknown_global_key_is_fatal (type iface key value : string) (w : World) :
  dict_get GLOBALS key = None ->
  _del_global type iface key value w
  = Outcome (inl (Exception ["Reset command unknown for:"; key])) w []
  /\ clear_setting type iface ("netplan/global/" ++ key) value w
     = Outcome (inl (Exception ["Reset command unknown for:"; key])) w [].
Proof.
  intros H. split; [apply del_global_unknown; exact H|].
  unfold clear_setting.
  rewrite (bind_err _ _ _ (Exception ["Reset command unknown for:"; key]));
    change (clear_value type iface ("netplan/global/" ++ key) value w)
      with (_del_global type iface key value w);
    rewrite (del_global_unknown _ _ _ _ _ H); reflexivity.
Qed.

(** ** The tag grammar *)

(** C6. Tag-kind classification: [clear_setting] splits the tag key on
    the slash into at most three parts and runs exactly one cleaner: the
    global one for three parts whose second is [global], the map-entry one
    for three parts whose second is not [global], the scalar one for two
    parts, so that [netplan/global] is a scalar column; a key that starts
    with the tag prefix has two or three parts. *)
Theorem tag_kind_classification (type iface setting value : string) :
  let parts := splitn "/" 2 setting in
  let forget := check_call (remove_tag type iface setting) in
  length parts <= 3
  /\ (forall p0 k, parts = [p0; "global"; k] ->
        clear_setting type iface setting value
        = (_del_global type iface k value ;; forget))
  /\ (forall p0 col k, parts = [p0; col; k] -> col <> "global" ->
        clear_setting type iface setting value
        = (_del_dict type iface col k value ;; forget))
  /\ (forall p0 col, parts = [p0; col] ->
        clear_setting type iface setting value
        = (_del_col type iface col value ;; forget))
  /\ clear_setting type iface "netplan/global" value
     = (_del_col type iface "global" value ;;
        check_call (remove_tag type iface "netplan/global"))
  /\ (startswith "netplan/" setting = true ->
        length parts = 2 \/ length parts = 3).
Proof.
  intros parts forget. split; [apply splitn_length_le|].
  unfold clear_setting. fold forget.
  split; [|split; [|split; [|split]]].
  - intros p0 k H. unfold clear_value. fold parts. rewrite H. reflexivity.
  - intros p0 col k H Hne. unfold clear_value. fold parts. rewrite H.
    cbn [getitem nth_error length].
    destruct (String.eqb_spec col "global") as [E|E]; [contradiction|].
    reflexivity.
  - intros p0 col H. unfold clear_value. fold parts. rewrite H.
    cbn [getitem nth_error length].
    destruct (String.eqb col "global"); reflexivity.
  - reflexivity.
  - intros Hp. pose proof (tag_key_parts _ Hp) as H2.
    pose proof (splitn_length_le "/" 2 setting) as H3.
    fold parts in H2, H3. lia.
Qed.

(** C4. Tag removal after the value-level part: whenever the value-level
    part of [clear_setting] returns, whatever it started, the removal of
    the tag key from [external-ids] is started next and is the last
    command, in particular when the partial-match guard kept the global
    value; when the value-level part raises, [clear_setting] raises the
    same exception and starts nothing more. *)
Theorem tag_removed_last (type iface setting value : string) (w : World) :
  (result (clear_value type iface setting value w) = inr tt ->
     emitted (clear_setting type iface setting value w)
     = (emitted (clear_value type iface setting value w)
        ++ [Event CheckCall (remove_tag type iface setting)])%list)
  /\ (forall e, result (clear_value type iface setting value w) = inl e ->
        result (clear_setting type iface setting value w) = inl e
        /\ emitted (clear_setting type iface setting value w)
           = emitted (clear_value type iface setting value w))
  /\ (forall key d g out w',
        dict_get GLOBALS key = Some (d, g) ->
        spawn w (global_argv g d iface) = (w', (0%Z, out)) ->
        forallb (fun item => contains item out) (split "," value) = false ->
        emitted (clear_setting type iface ("netplan/global/" ++ key) value w)
        = [Event CheckOutput (global_argv g d iface);
           Event CheckCall (remove_tag type iface ("netplan/global/" ++ key))]).
Proof.
  split; [|split].
  - intros H. unfold clear_setting. rewrite (bind_ok _ _ _ _ H).
    cbn [emitted]. rewrite check_call_emitted. reflexivity.
  - intros e H. unfold clear_setting. rewrite (bind_err _ _ _ _ H).
    split; reflexivity.
  - intros key d g out w' Hk Hget Hall.
    destruct (del_global_fetched type iface key value d g out w w'
                Hk Hget) as (_ & Hno).
    specialize (Hno Hall).
    unfold clear_setting.
    change (clear_value type iface ("netplan/global/" ++ key) value)
      with (_del_global type iface key value).
    rewrite (bind_ok _ _ _ tt); rewrite Hno; [|reflexivity].
    cbn [emitted world_after]. rewrite check_call_emitted. reflexivity.
Qed.

(** *** No failed index access or unpacking *)

Lemma bind_no_crash {A B} (m : M A) (f : A -> M B) (w : World) :
  crashes (result (m w)) = false ->
  (forall a w', crashes (result (f a w')) = false) ->
  crashes (result (bind m f w)) = false.
Proof.
  intros Hm Hf. unfold bind.
  destruct (result (m w)) as [e|a]; cbn [result]; [exact Hm|apply Hf].
Qed.

Lemma check_call_no_crash (argv : list string) (w : World) :
  crashes (result (check_call argv w)) = false.
Proof.
  unfold check_call, bind, start.
  destruct (spawn w argv) as [w' [rc out]]. simpl.
  destruct (Z.eqb rc 0); reflexivity.
Qed.

Lemma check_output_no_crash (argv : list string) (w : World) :
  crashes (result (check_output argv w)) = false.
Proof.
  unfold check_output, bind, start.
  destruct (spawn w argv) as [w' [rc out]]. simpl.
  destruct (Z.eqb rc 0); reflexivity.
Qed.

Lemma del_col_no_crash (type iface column value : string) (w : World) :
  crashes (result (_del_col type iface column value w)) = false.
Proof.
  unfold _del_col. destruct (dict_get DEFAULTS column) as [d|].
  - destruct (truthy (Some d) && negb (String.eqb d value));
      [apply check_call_no_crash|reflexivity].
  - apply check_call_no_crash.
Qed.

Lemma del_global_no_crash (type iface key value : string) (w : World) :
  crashes (result (_del_global type iface key value w)) = false.
Proof.
  destruct (dict_get GLOBALS key) as [[d g]|] eqn:Hk.
  - rewrite (del_global_known _ _ _ _ _ _ Hk).
    apply bind_no_crash; [apply check_output_no_crash|].
    intros out w'. destruct (forallb _ _);
      [apply check_call_no_crash|reflexivity].
  - rewrite (del_global_unknown _ _ _ _ _ Hk). reflexivity.
Qed.

Lemma clear_setting_no_crash (type iface setting value : string) (w : World) :
  2 <= length (splitn "/" 2 setting) ->
  crashes (result (clear_setting type iface setting value w)) = false.
Proof.
  intros Hlen. unfold clear_setting.
  apply bind_no_crash; [|intros; apply check_call_no_crash].
  unfold clear_value.
  destruct (splitn "/" 2 setting) as [|p0 [|col [|k rest]]];
    cbn [length] in Hlen; try lia; cbn [getitem nth_error length].
  - replace (Nat.ltb 2 2) with false by reflexivity.
    rewrite andb_false_r. apply del_col_no_crash.
  - replace (Nat.ltb 2 (S (S (S (length rest))))) with true by reflexivity.
    destruct (String.eqb col "global"); cbn [andb].
    + apply del_global_no_crash.
    + apply check_call_no_crash.
Qed.

(** C10. Safety of the tag dispatch: a token that does not start with the
    tag prefix, or holds no equals sign, is skipped; any other token
    splits on the equals sign into a key and a value, the key splits on
    the slash into at least two parts, [clear_setting] is called on
    them, and neither the unpacking nor the column access fails. *)
Theorem tag_dispatch_is_safe (t iface entry : string) (w : World) :
  (startswith "netplan/" entry = false ->
     step2_entry t iface entry w = Outcome (inr tt) w [])
  /\ (contains "=" entry = false ->
     step2_entry t iface entry w = Outcome (inr tt) w [])
  /\ (startswith "netplan/" entry = true -> contains "=" entry = true ->
     exists setting val,
       entry = setting ++ "=" ++ val
       /\ splitn "=" 1 entry = [setting; val]
       /\ 2 <= length (splitn "/" 2 setting)
       /\ step2_entry t iface entry = clear_setting t iface setting val)
  /\ crashes (result (step2_entry t iface entry w)) = false.
Proof.
  assert (Hshape : startswith "netplan/" entry = true -> contains "=" entry = true ->
     exists setting val,
       entry = setting ++ "=" ++ val
       /\ splitn "=" 1 entry = [setting; val]
       /\ 2 <= length (splitn "/" 2 setting)
       /\ step2_entry t iface entry = clear_setting t iface setting val).
  { intros Hp Hc.
    destruct (tag_token_shape _ Hp Hc) as (setting & val & He & Hs & Hps).
    exists setting, val. repeat split; auto using tag_key_parts.
    unfold step2_entry. rewrite Hp, Hc, Hs. reflexivity. }
  repeat split.
  - intros H. unfold step2_entry. rewrite H. reflexivity.
  - intros H. unfold step2_entry. rewrite H, andb_false_r. reflexivity.
  - exact Hshape.
  - destruct (startswith "netplan/" entry) eqn:Hp;
      [destruct (contains "=" entry) eqn:Hc|].
    + destruct (Hshape eq_refl eq_refl) as (setting & val & _ & _ & Hlen & ->).
      apply clear_setting_no_crash. exact Hlen.
    + unfold step2_entry. rewrite Hp, Hc. reflexivity.
    + unfold step2_entry. rewrite Hp. reflexivity.
Qed.

(** ** The preflight *)

(** C9. Preflight failure signaling: without the [ovs-vsctl] binary the
    run raises [OvsDbServerNotInstalled] and starts no process; with the
    binary and a failing probe it raises [OvsDbServerNotRunning] and the
    probe is the only process started. *)
Theorem preflight_failure_signaling {A B : Type} (cm : ConfigurationManager)
    (ovs_old : A) (ovs_current : B) (w : World) :
  (path_exists w OVS_VSCTL_PATH = false ->
     apply_ovs_cleanup cm ovs_old ovs_current w
     = Outcome (inl (OvsDbServerNotInstalled
                       "Cannot apply OpenvSwitch cleanup: ovs-vsctl is 'not-found'"))
               w [])
  /\ (forall w' rc out,
       path_exists w OVS_VSCTL_PATH = true ->
       spawn w [OVS_VSCTL_PATH; "show"] = (w', (rc, out)) ->
       rc <> 0%Z ->
       apply_ovs_cleanup cm ovs_old ovs_current w
       = Outcome (inl (OvsDbServerNotRunning "OpenvSwitch database is not running"))
                 w' [Event Call [OVS_VSCTL_PATH; "show"]]).
Proof.
  split.
  - intros H. unfold apply_ovs_cleanup, bind, _ovs_installed, os_path_exists.
    cbn [result world_after emitted]. rewrite H. reflexivity.
  - intros w' rc out H Hs Hrc.
    unfold apply_ovs_cleanup, bind, _ovs_installed, os_path_exists, _ovs_active,
      subprocess_call, start, bind, ret.
    cbn [result world_after emitted]. rewrite H. cbn [negb].
    unfold raise. rewrite Hs. cbn.
    destruct (Z.eqb_spec rc 0) as [E|E]; [contradiction|]. reflexivity.
Qed.

(** ** The reconciliation engine *)

(** A loop whose body keeps an invariant of the world and starts no
    mutating command starts none as a whole. *)
Lemma for_each_quiet {A} (I : World -> Prop) (xs : list A) (body : A -> M unit) :
  (forall x w, In x xs -> I w ->
     I (world_after (body x w)) /\ mutations (emitted (body x w)) = []) ->
  forall w, I w ->
    I (world_after (for_each xs body w))
    /\ mutations (emitted (for_each xs body w)) = [].
Proof.
  induction xs as [|x xs IH]; intros Hbody w Hw.
  - split; [exact Hw|reflexivity].
  - destruct (Hbody x w (or_introl eq_refl) Hw) as [Hw1 Hq1].
    cbn [for_each]. unfold bind.
    destruct (result (body x w)) as [e|[]]; cbn [world_after emitted].
    + split; assumption.
    + destruct (IH (fun y w' Hy => Hbody y w' (or_intror Hy))
                   (world_after (body x w)) Hw1) as [Hw2 Hq2].
      split; [exact Hw2|]. rewrite mutations_app, Hq1, Hq2. reflexivity.
Qed.

(** A loop whose body does nothing does nothing. *)
Lemma for_each_skip {A} (xs : list A) (body : A -> M unit) (w : World) :
  (forall x, In x xs -> body x w = Outcome (inr tt) w []) ->
  for_each xs body w = Outcome (inr tt) w [].
Proof.
  induction xs as [|x xs IH]; intros Hbody; [reflexivity|].
  cbn [for_each]. unfold bind.
  rewrite (Hbody x (or_introl eq_refl)). cbn [result world_after emitted].
  rewrite IH; [reflexivity|]. intros y Hy. apply Hbody. right. exact Hy.
Qed.

Lemma step1_line_skip (t : string * string) (ovs_ifaces : list string)
    (line : string) (w : World) :
  negb (contains "netplan=true" line)
  || match getitem (split "," line) 0 with
     | Some iface => in_set iface ovs_ifaces
     | None => true
     end = true ->
  emitted (step1_line t ovs_ifaces line w) = []
  /\ world_after (step1_line t ovs_ifaces line w) = w.
Proof.
  intros H. unfold step1_line.
  destruct (contains "netplan=true" line); [|split; reflexivity].
  cbn [negb orb] in H.
  destruct (getitem (split "," line) 0) as [iface|]; [|split; reflexivity].
  rewrite H. split; reflexivity.
Qed.

Lemma step2_line_skip (t line : string) (w : World) :
  contains "netplan/" line = false ->
  step2_line t line w = Outcome (inr tt) w [].
Proof. intros H. unfold step2_line. rewrite H. reflexivity. Qed.

(** A row none of whose entries starts with the tag prefix has no
    command started for it. *)
Lemma step2_line_untagged (t line iface extids : string) (w : World) :
  (if negb (String.eqb t "Open_vSwitch")
   then splitn "," 1 line = [iface; extids]
   else extids = line) ->
  (forall entry, In entry (split " " (strip DQUOTE extids)) ->
     startswith "netplan/" entry = false) ->
  step2_line t line w = Outcome (inr tt) w [].
Proof.
  intros Hrow Hentries. unfold step2_line.
  destruct (contains "netplan/" line); [|reflexivity].
  assert (Hloop : forall i, for_each (split " " (strip DQUOTE extids))
                                     (step2_entry t i) w
                            = Outcome (inr tt) w []).
  { intros i. apply for_each_skip. intros entry Hin.
    unfold step2_entry. rewrite (Hentries _ Hin). reflexivity. }
  destruct (negb (String.eqb t "Open_vSwitch")).
  - rewrite Hrow. unfold bind, ret. cbn [result world_after emitted snd fst].
    rewrite Hloop. reflexivity.
  - subst extids. unfold bind, ret. cbn [result world_after emitted snd fst].
    rewrite Hloop. reflexivity.
Qed.

(** *** A run that finds nothing to do *)

Lemma step1_table_settled (ovs_ifaces : list string) (t : string * string)
    (w : World) :
  stale_free ovs_ifaces
    (snd (snd (spawn w (list_cmd "name,external-ids" (fst t))))) = true ->
  world_after (step1_table ovs_ifaces t w)
  = fst (spawn w (list_cmd "name,external-ids" (fst t)))
  /\ mutations (emitted (step1_table ovs_ifaces t w)) = [].
Proof.
  intros Hfree. unfold step1_table, check_output, start, bind.
  destruct (spawn w (list_cmd "name,external-ids" (fst t))) as [w' [rc out]].
  cbn [fst snd] in *. cbn [result world_after emitted fst snd].
  destruct (Z.eqb rc 0); cbn [ret raise result world_after emitted app];
    [|split; reflexivity].
  unfold stale_free in Hfree. rewrite forallb_forall in Hfree.
  destruct (for_each_quiet (fun x => x = w') (splitlines out)
              (step1_line t ovs_ifaces)) with (w := w') as [Hw Hq];
    [|reflexivity|].
  - intros line x Hin ->.
    destruct (step1_line_skip t ovs_ifaces line w' (Hfree _ Hin)) as [He Hw].
    rewrite He, Hw. split; reflexivity.
  - split; [exact Hw|]. exact Hq.
Qed.

Lemma step2_table_settled (t : string) (w : World) :
  tag_free (snd (snd (spawn w (list_cmd (step2_cols t) t)))) = true ->
  world_after (step2_table t w) = fst (spawn w (list_cmd (step2_cols t) t))
  /\ mutations (emitted (step2_table t w)) = [].
Proof.
  intros Hfree. unfold step2_table, check_output, start, bind.
  destruct (spawn w (list_cmd (step2_cols t) t)) as [w' [rc out]].
  cbn [fst snd] in *. cbn [result world_after emitted fst snd].
  destruct (Z.eqb rc 0); cbn [ret raise result world_after emitted app];
    [|split; reflexivity].
  unfold tag_free in Hfree. rewrite forallb_forall in Hfree.
  rewrite (for_each_skip (splitlines out) (step2_line t) w').
  - split; reflexivity.
  - intros line Hin. apply step2_line_skip.
    apply negb_true_iff. apply Hfree. exact Hin.
Qed.

Lemma queried_listing (w w' : World) (cols t : string) :
  queried w w' -> queried w (fst (spawn w' (list_cmd cols t))).
Proof.
  intros H. apply queried_next; [exact H|]. right. exists cols, t. reflexivity.
Qed.

Lemma bind_returns {A B} (m : M A) (f : A -> M B) (w : World) (a : A)
    (w' : World) (es : list event) :
  m w = Outcome (inr a) w' es ->
  bind m f w = Outcome (result (f a w')) (world_after (f a w'))
                       (es ++ emitted (f a w'))%list.
Proof. intros H. unfold bind. rewrite H. reflexivity. Qed.

Lemma ovs_active_run (w : World) :
  _ovs_active w
  = Outcome (inr (Z.eqb (fst (snd (spawn w [OVS_VSCTL_PATH; "show"]))) 0))
            (fst (spawn w [OVS_VSCTL_PATH; "show"]))
            [Event Call [OVS_VSCTL_PATH; "show"]].
Proof.
  unfold _ovs_active, subprocess_call, bind, start, ret.
  destruct (spawn w [OVS_VSCTL_PATH; "show"]) as [w1 [rc out]]. reflexivity.
Qed.

(** The run, with the preflight and the parse of the configuration
    written out. *)
Lemma apply_ovs_cleanup_run {A B : Type} (cm : ConfigurationManager)
    (ovs_old : A) (ovs_current : B) (w : World) :
  apply_ovs_cleanup cm ovs_old ovs_current w
  = if path_exists w OVS_VSCTL_PATH then
      let probe := Event Call [OVS_VSCTL_PATH; "show"] in
      let w1 := fst (spawn w [OVS_VSCTL_PATH; "show"]) in
      if Z.eqb (fst (snd (spawn w [OVS_VSCTL_PATH; "show"]))) 0 then
        match parse cm w1 with
        | inl e => Outcome (inl e) w1 [probe]
        | inr netdefs =>
            let o := (step1 (declared_ovs_ifaces netdefs) ;; step2) w1 in
            Outcome (result o) (world_after o) (probe :: emitted o)
        end
      else Outcome (inl (OvsDbServerNotRunning "OpenvSwitch database is not running"))
                   w1 [probe]
    else Outcome (inl (OvsDbServerNotInstalled
                         "Cannot apply OpenvSwitch cleanup: ovs-vsctl is 'not-found'"))
                 w [].
Proof.
  unfold apply_ovs_cleanup.
  rewrite (bind_returns _ _ w (path_exists w OVS_VSCTL_PATH) w []) by reflexivity.
  destruct (path_exists w OVS_VSCTL_PATH); cbn [negb]; [|reflexivity].
  rewrite (bind_returns _ _ w _ _ _ (ovs_active_run w)).
  destruct (Z.eqb _ 0); cbn [negb]; [|reflexivity].
  set (w1 := fst (spawn w [OVS_VSCTL_PATH; "show"])).
  destruct (parse cm w1) as [e|netdefs] eqn:Hp.
  - rewrite (bind_err (config_parse cm) _ w1 e)
      by (unfold config_parse; cbn [result]; exact Hp).
    reflexivity.
  - rewrite (bind_returns (config_parse cm) _ w1 netdefs w1 [])
      by (unfold config_parse; rewrite Hp; reflexivity).
    reflexivity.
Qed.

(** A run that follows another on a settled database: when the first
    of two consecutive runs leaves a database whose listings show no
    stale [netplan=true] row and no text [netplan/], the second run
    starts no mutating command. *)
Lemma second_run_is_quiet {A B : Type} (cm : ConfigurationManager)
    (ovs_old : A) (ovs_current : B) (w : World) :
  let first := apply_ovs_cleanup cm ovs_old ovs_current w in
  (forall w0 netdefs, parse cm w0 = inr netdefs ->
     settled (declared_ovs_ifaces netdefs) (world_after first)) ->
  mutations (emitted (apply_ovs_cleanup cm ovs_old ovs_current (world_after first)))
  = [].
Proof.
  intros first Hsettled. generalize dependent (world_after first).
  clear first w. intros w Hsettled. rewrite apply_ovs_cleanup_run.
  destruct (path_exists w OVS_VSCTL_PATH); [|reflexivity].
  cbv zeta.
  assert (Hq1 : queried w (fst (spawn w [OVS_VSCTL_PATH; "show"]))).
  { apply queried_next; [apply queried_here|]. left. reflexivity. }
  set (w1 := fst (spawn w [OVS_VSCTL_PATH; "show"])) in *.
  destruct (Z.eqb _ 0); [|reflexivity].
  destruct (parse cm w1) as [e|netdefs] eqn:Hparse; [reflexivity|].
  specialize (Hsettled _ _ Hparse).
  cbn [emitted].
  change (mutations (?e :: ?es)) with (mutations es).
  destruct (for_each_quiet (queried w) step1_tables
              (step1_table (declared_ovs_ifaces netdefs))) with (w := w1)
    as [Hq2 Hm1]; [|exact Hq1|].
  { intros t w' _ Hw'.
    destruct (step1_table_settled (declared_ovs_ifaces netdefs) t w') as [Hwa Hm].
    - apply Hsettled. exact Hw'.
    - rewrite Hwa. split; [apply queried_listing; exact Hw'|exact Hm]. }
  destruct (for_each_quiet (queried w) step2_tables step2_table)
    with (w := world_after (step1 (declared_ovs_ifaces netdefs) w1))
    as [_ Hm2]; [|exact Hq2|].
  { intros t w' _ Hw'.
    destruct (step2_table_settled t w') as [Hwa Hm].
    - apply Hsettled. exact Hw'.
    - rewrite Hwa. split; [apply queried_listing; exact Hw'|exact Hm]. }
  fold (step1 (declared_ovs_ifaces netdefs)) in Hm1. fold step2 in Hm2.
  unfold bind.
  destruct (result (step1 (declared_ovs_ifaces netdefs) w1)) as [e|[]];
    cbn [emitted]; [exact Hm1|].
  rewrite mutations_app, Hm1, Hm2. reflexivity.
Qed.

(** *** The order of the deletions of step 1 *)

Lemma br_exists_run (argv : list string) (w : World) :
  (rc <- subprocess_run argv ;; ret (Z.ltb 0 rc)) w
  = Outcome (inr (Z.ltb 0 (fst (snd (spawn w argv))))) (fst (spawn w argv))
            [Event Run argv].
Proof.
  unfold subprocess_run, bind, start, ret.
  destruct (spawn w argv) as [w1 [rc out]]. reflexivity.
Qed.

(** What the body of step 1 starts for one line: no listing, and no
    mutating command but the deletion for its table. *)
Lemma step1_line_events (t : string * string) (ovs_ifaces : list string)
    (line : string) (w : World) :
  Forall (fun e => ev_kind e <> CheckOutput
                   /\ (mutating e = true -> deletes t (ev_argv e)))
         (emitted (step1_line t ovs_ifaces line w)).
Proof.
  unfold step1_line.
  destruct (contains "netplan=true" line); [|constructor].
  destruct (getitem (split "," line) 0) as [iface|]; [|constructor].
  destruct (in_set iface ovs_ifaces); [constructor|].
  assert (Hdel : forall w', Forall (fun e => ev_kind e <> CheckOutput
                   /\ (mutating e = true -> deletes t (ev_argv e)))
              (emitted (check_call [OVS_VSCTL_PATH; "--if-exists"; snd t; iface] w'))).
  { intros w'. rewrite check_call_emitted. repeat constructor; [discriminate|].
    intros _. exists iface. left. reflexivity. }
  destruct (String.eqb_spec (fst t) "Interface") as [Ht|Ht].
  - rewrite (bind_returns _ _ w _ _ _ (br_exists_run _ w)).
    cbn [emitted app].
    constructor; [split; [discriminate|discriminate]|].
    destruct (Z.ltb 0 _); [|apply Hdel].
    rewrite check_call_emitted. repeat constructor; [discriminate|].
    intros _. exists iface. right. split; [exact Ht|reflexivity].
  - rewrite (bind_returns _ _ w false w []) by reflexivity.
    cbn [app]. apply Hdel.
Qed.

Lemma for_each_events {A} (P : event -> Prop) (xs : list A) (body : A -> M unit) :
  (forall x w, Forall P (emitted (body x w))) ->
  forall w, Forall P (emitted (for_each xs body w)).
Proof.
  intros Hbody. induction xs as [|x xs IH]; intros w; [constructor|].
  cbn [for_each]. unfold bind.
  destruct (result (body x w)) as [e|[]]; cbn [emitted]; [apply Hbody|].
  apply Forall_app. split; [apply Hbody|apply IH].
Qed.

Lemma step1_table_events (ovs_ifaces : list string) (t : string * string)
    (w : World) :
  exists rest,
    emitted (step1_table ovs_ifaces t w)
    = Event CheckOutput (list_cmd "name,external-ids" (fst t)) :: rest
    /\ Forall (fun e => ev_kind e <> CheckOutput
                        /\ (mutating e = true -> deletes t (ev_argv e))) rest.
Proof.
  unfold step1_table, check_output, start, bind.
  destruct (spawn w (list_cmd "name,external-ids" (fst t))) as [w' [rc out]].
  cbn [fst snd result world_after emitted].
  destruct (Z.eqb rc 0); cbn [ret raise result world_after emitted app].
  - eexists. split; [reflexivity|].
    apply for_each_events. intros line w0. apply step1_line_events.
  - exists []. split; [reflexivity|constructor].
Qed.

(** The events of a loop, one segment for each element; a segment is
    empty when an exception ended the loop before its element. *)
Lemma for_each_segments {A} (xs : list A) (body : A -> M unit) (w : World) :
  exists segs,
    emitted (for_each xs body w) = concat segs
    /\ Forall2 (fun x seg => seg = [] \/ exists w', seg = emitted (body x w'))
               xs segs.
Proof.
  revert w. induction xs as [|x xs IH]; intros w.
  - exists []. split; [reflexivity|constructor].
  - cbn [for_each]. unfold bind.
    destruct (result (body x w)) as [e|[]]; cbn [emitted].
    + exists (emitted (body x w) :: map (fun _ => []) xs). split.
      * cbn [concat]. clear. induction xs as [|y ys IHy];
          [symmetry; apply app_nil_r|exact IHy].
      * constructor; [right; exists w; reflexivity|].
        clear. induction xs; constructor; auto.
    + destruct (IH (world_after (body x w))) as (segs & He & Hs).
      exists (emitted (body x w) :: segs). split.
      * cbn [concat]. rewrite He. reflexivity.
      * constructor; [right; exists w; reflexivity|exact Hs].
Qed.

Lemma deletions_of_rest (t : string * string) (c : string)
    (rest more : list event) :
  Forall (fun e => ev_kind e <> CheckOutput
                   /\ (mutating e = true -> deletes t (ev_argv e))) rest ->
  exists d,
    deletions_by_table c (rest ++ more)
    = (map (pair c) d ++ deletions_by_table c more)%list
    /\ Forall (deletes t) d.
Proof.
  induction 1 as [|e rest [Hk Hd] _ (d & Heq & Hall)].
  - exists []. split; [reflexivity|constructor].
  - cbn [app deletions_by_table].
    destruct e as [k argv]. cbn [ev_kind ev_argv] in *.
    destruct k.
    + exists (argv :: d). cbn [map app]. rewrite Heq.
      split; [reflexivity|]. constructor; [apply Hd; reflexivity|exact Hall].
    + contradiction.
    + exists d. split; assumption.
    + exists d. split; assumption.
Qed.

Lemma deletions_of_segment (ovs_ifaces : list string) (t : string * string)
    (seg : list event) :
  seg = [] \/ (exists w', seg = emitted (step1_table ovs_ifaces t w')) ->
  forall c more, exists d c',
    deletions_by_table c (seg ++ more)
    = (map (pair (fst t)) d ++ deletions_by_table c' more)%list
    /\ Forall (deletes t) d.
Proof.
  intros [->|[w' ->]] c more.
  - exists [], c. split; [reflexivity|constructor].
  - destruct (step1_table_events ovs_ifaces t w') as (rest & -> & Hrest).
    destruct (deletions_of_rest t (fst t) rest more Hrest) as (d & Heq & Hall).
    exists d, (fst t). split; [|exact Hall].
    cbn [app deletions_by_table ev_kind ev_argv]. exact Heq.
Qed.

(** The deletions of step 1 come grouped by table: those of the
    [Port] listing, then those of the [Bridge] listing, then those of
    the [Interface] listing. *)
Lemma step1_deletions_grouped (ovs_ifaces : list string) (w : World) :
  exists dP dB dI,
    deletions_by_table EmptyString (emitted (step1 ovs_ifaces w))
    = (map (pair "Port") dP ++ map (pair "Bridge") dB
       ++ map (pair "Interface") dI)%list
    /\ Forall (deletes ("Port", "del-port")) dP
    /\ Forall (deletes ("Bridge", "del-br")) dB
    /\ Forall (deletes ("Interface", "del-br")) dI.
Proof.
  destruct (for_each_segments step1_tables (step1_table ovs_ifaces) w)
    as (segs & He & Hs).
  unfold step1. rewrite He. unfold step1_tables in Hs.
  inversion Hs as [|tP sP ? ? HP Hs1]; subst.
  inversion Hs1 as [|tB sB ? ? HB Hs2]; subst.
  inversion Hs2 as [|tI sI ? ? HI Hs3]; subst.
  inversion Hs3; subst. cbn [concat].
  destruct (deletions_of_segment _ _ _ HP EmptyString (sB ++ sI ++ []))
    as (dP & cP & EP & AP).
  destruct (deletions_of_segment _ _ _ HB cP (sI ++ []))
    as (dB & cB & EB & AB).
  destruct (deletions_of_segment _ _ _ HI cB [])
    as (dI & cI & EI & AI).
  exists dP, dB, dI. rewrite EP, EB, EI. cbn [fst deletions_by_table].
  rewrite app_nil_r. auto.
Qed.

(** *** A row that only looks marked *)

(** Step 1 deletes a bridge whose only entry is [not-netplan=true]. *)
Lemma step1_line_foreign (w : World) :
  emitted (step1_line ("Bridge", "del-br") [] "br9,not-netplan=true" w)
  = [Event CheckCall [OVS_VSCTL_PATH; "--if-exists"; "del-br"; "br9"]].
Proof.
  unfold step1_line.
  replace (contains "netplan=true" "br9,not-netplan=true") with true
    by reflexivity.
  replace (getitem (split "," "br9,not-netplan=true") 0) with (Some "br9")
    by reflexivity.
  cbn [in_set existsb fst snd].
  replace (String.eqb "Bridge" "Interface") with false by reflexivity.
  rewrite (bind_returns _ _ w false w []) by reflexivity.
  cbn [app]. apply check_call_emitted.
Qed.

End OvsProperties.

(** ** Runs on the small database *)

Section Runs.

#[local] Existing Instance FakeDb.env.

Example split_tag : splitn "/" 2 "netplan/external-ids/iface-id/x"
                    = ["netplan"; "external-ids"; "iface-id/x"].
Proof. reflexivity. Qed.

Example split_short : splitn "/" 2 "netplan/global" = ["netplan"; "global"].
Proof. reflexivity. Qed.

Example strip_quotes :
  split " " (strip DQUOTE (String DQUOTE ("a=b netplan=true" ++ String DQUOTE EmptyString)))
  = ["a=b"; "netplan=true"].
Proof. reflexivity. Qed.

Example splitlines_ex :
  splitlines (String "a" (String LF (String LF (String "b" (String CR (String LF EmptyString))))))
  = ["a"; EmptyString; "b"].
Proof. reflexivity. Qed.

(** Reading the small database does not change it. *)
Lemma fake_queried_same (s s' : FakeDb.state) : queried s s' -> s' = s.
Proof.
  induction 1 as [|s' argv _ IH Hq]; [reflexivity|]. subst s'.
  destruct Hq as [->|(cols & t & ->)]; cbn [spawn FakeDb.env];
    unfold FakeDb.ovs_vsctl, list_cmd;
    destruct (negb (FakeDb.installed s && FakeDb.running s)); reflexivity.
Qed.

Lemma fake_listing (s : FakeDb.state) (cols t : string) :
  FakeDb.installed s && FakeDb.running s = true ->
  snd (snd (spawn s (list_cmd cols t))) = FakeDb.listing t (FakeDb.rows s).
Proof.
  intros H. cbn [spawn FakeDb.env]. unfold FakeDb.ovs_vsctl, list_cmd.
  rewrite H. reflexivity.
Qed.

(** The scenario of the three bridges: the stale one is deleted, the
    foreign one is left alone, the tagged settings of the declared one
    are reverted and their tags forgotten. *)
Example cleanup_bridges :
  map ev_argv (mutations (emitted (FakeDb.cleanup ["ovs0"] FakeDb.bridges)))
  = [ [OVS_VSCTL_PATH; "--if-exists"; "del-br"; "ovs1"];
      [OVS_VSCTL_PATH; "remove"; "Bridge"; "ovs0"; "external-ids";
       "iface-id=" ++ String DQUOTE ("myhostname" ++ String DQUOTE EmptyString)];
      remove_tag "Bridge" "ovs0" "netplan/external-ids/iface-id";
      [OVS_VSCTL_PATH; "del-fail-mode"; "ovs0"];
      remove_tag "Bridge" "ovs0" "netplan/global/set-fail-mode";
      [OVS_VSCTL_PATH; "set"; "Bridge"; "ovs0"; "mcast_snooping_enable=false"];
      remove_tag "Bridge" "ovs0" "netplan/mcast_snooping_enable" ]
  /\ FakeDb.rows (world_after (FakeDb.cleanup ["ovs0"] FakeDb.bridges))
     = [ FakeDb.Row "Bridge" "ovs0" ["netplan=true"];
         FakeDb.Row "Bridge" "legacy0" ["owner=someone-else"] ].
Proof. split; vm_compute; reflexivity. Qed.

(** *** The properties on concrete inputs *)

Lemma del_col_default_aware_witness :
  emitted (_del_col "Bridge" "ovs0" "other_config" "x" FakeDb.bridges)
  = [Event CheckCall [OVS_VSCTL_PATH; "remove"; "Bridge"; "ovs0"; "other_config"; "x"]]
  /\ emitted (_del_col "Bridge" "ovs0" "mcast_snooping_enable" "true" FakeDb.bridges)
     = [Event CheckCall [OVS_VSCTL_PATH; "set"; "Bridge"; "ovs0";
                         "mcast_snooping_enable=false"]]
  /\ _del_col "Bridge" "ovs0" "mcast_snooping_enable" "false" FakeDb.bridges
     = Outcome (inr tt) FakeDb.bridges [].
Proof.
  split; [|split].
  - apply (proj1 (del_col_default_aware (env := FakeDb.env) "Bridge" "ovs0" "other_config" "x"
                    FakeDb.bridges)).
    reflexivity.
  - apply (proj1 (proj2 (del_col_default_aware (env := FakeDb.env) "Bridge" "ovs0"
                           "mcast_snooping_enable" "true" FakeDb.bridges))
             "false"); [reflexivity|discriminate].
  - apply (proj2 (proj2 (del_col_default_aware (env := FakeDb.env) "Bridge" "ovs0"
                           "mcast_snooping_enable" "false" FakeDb.bridges))
             "false"); reflexivity.
Defined.

Lemma del_global_partial_match_guard_witness :
  emitted (_del_global "Bridge" "ovs0" "set-controller"
             "tcp:127.0.0.1:1337,unix:/some/socket" FakeDb.both_controllers)
  = [Event CheckOutput [OVS_VSCTL_PATH; "get-controller"; "ovs0"];
     Event CheckCall [OVS_VSCTL_PATH; "del-controller"; "ovs0"]]
  /\ _del_global "Bridge" "ovs0" "set-controller"
       "tcp:127.0.0.1:1337,unix:/some/socket" FakeDb.one_controller
     = Outcome (inr tt) FakeDb.one_controller
               [Event CheckOutput [OVS_VSCTL_PATH; "get-controller"; "ovs0"]].
Proof.
  split.
  - apply (proj1 (del_global_partial_match_guard (env := FakeDb.env) "Bridge" "ovs0" "set-controller"
                    "tcp:127.0.0.1:1337,unix:/some/socket"
                    "del-controller" "get-controller"
                    ("tcp:127.0.0.1:1337" ++ String LF "unix:/some/socket")
                    FakeDb.both_controllers FakeDb.both_controllers
                    eq_refl eq_refl)).
  - apply (proj2 (proj2 (del_global_partial_match_guard (env := FakeDb.env) "Bridge" "ovs0"
                           "set-controller" "tcp:127.0.0.1:1337,unix:/some/socket"
                           "del-controller" "get-controller" "tcp:127.0.0.1:1337"
                           FakeDb.one_controller FakeDb.one_controller
                           eq_refl eq_refl))).
    reflexivity.
Defined.

Lemma unknown_global_key_is_fatal_witness :
  _del_global "Bridge" "ovs0" "set-manager" "ptcp:6640" FakeDb.bridges
  = Outcome (inl (Exception ["Reset command unknown for:"; "set-manager"]))
            FakeDb.bridges []
  /\ clear_setting "Bridge" "ovs0" "netplan/global/set-manager" "ptcp:6640"
       FakeDb.bridges
     = Outcome (inl (Exception ["Reset command unknown for:"; "set-manager"]))
               FakeDb.bridges [].
Proof.
  apply (unknown_global_key_is_fatal (env := FakeDb.env) "Bridge" "ovs0" "set-manager" "ptcp:6640"
           FakeDb.bridges).
  reflexivity.
Defined.

Lemma tag_removed_last_witness :
  emitted (clear_setting "Bridge" "ovs0" "netplan/mcast_snooping_enable" "false"
             FakeDb.bridges)
  = [Event CheckCall (remove_tag "Bridge" "ovs0" "netplan/mcast_snooping_enable")]
  /\ (result (clear_setting "Bridge" "ovs0" "netplan/global/set-manager"
                "ptcp:6640" FakeDb.bridges)
      = inl (Exception ["Reset command unknown for:"; "set-manager"])
      /\ emitted (clear_setting "Bridge" "ovs0" "netplan/global/set-manager"
                    "ptcp:6640" FakeDb.bridges)
         = emitted (clear_value "Bridge" "ovs0" "netplan/global/set-manager"
                      "ptcp:6640" FakeDb.bridges))
  /\ emitted (clear_setting "Bridge" "ovs0" "netplan/global/set-controller"
                "tcp:127.0.0.1:1337,unix:/some/socket" FakeDb.one_controller)
     = [Event CheckOutput [OVS_VSCTL_PATH; "get-controller"; "ovs0"];
        Event CheckCall (remove_tag "Bridge" "ovs0" "netplan/global/set-controller")].
Proof.
  split; [|split].
  - apply (proj1 (tag_removed_last (env := FakeDb.env) "Bridge" "ovs0"
                    "netplan/mcast_snooping_enable" "false" FakeDb.bridges)).
    reflexivity.
  - apply (proj1 (proj2 (tag_removed_last (env := FakeDb.env) "Bridge" "ovs0"
                           "netplan/global/set-manager" "ptcp:6640"
                           FakeDb.bridges))
             (Exception ["Reset command unknown for:"; "set-manager"])).
    reflexivity.
  - apply (proj2 (proj2 (tag_removed_last (env := FakeDb.env) "Bridge" "ovs0"
                    "netplan/global/set-controller"
                    "tcp:127.0.0.1:1337,unix:/some/socket" FakeDb.one_controller))
             "set-controller" "del-controller" "get-controller"
             "tcp:127.0.0.1:1337" FakeDb.one_controller);
      reflexivity.
Defined.

(** A tag with an unknown global key, and a tag whose value-level
    command is refused, are not removed. *)
Lemma raising_cleaner_keeps_the_tag :
  emitted (clear_setting "Bridge" "ovs0" "netplan/global/set-manager" "ptcp:6640"
             FakeDb.bridges) = []
  /\ ~ In (Event CheckCall (remove_tag "Bridge" "ovs0" "netplan/global/set-manager"))
          (emitted (clear_setting "Bridge" "ovs0" "netplan/global/set-manager"
                      "ptcp:6640" FakeDb.bridges))
  /\ ~ In (Event CheckCall (remove_tag "Port" "p1" "netplan/lacp"))
          (emitted (clear_setting "Port" "p1" "netplan/lacp" "active"
                      FakeDb.frozen)).
Proof.
  split; [reflexivity|]. split.
  - intros H. exact H.
  - vm_compute. intros [H|[]]. discriminate.
Qed.

Lemma tag_kind_classification_witness :
  clear_setting "Bridge" "ovs0" "netplan/global/set-fail-mode" "standalone"
  = (_del_global "Bridge" "ovs0" "set-fail-mode" "standalone" ;;
     check_call (remove_tag "Bridge" "ovs0" "netplan/global/set-fail-mode"))
  /\ clear_setting "Bridge" "ovs0" "netplan/external-ids/iface-id" "myhostname"
     = (_del_dict "Bridge" "ovs0" "external-ids" "iface-id" "myhostname" ;;
        check_call (remove_tag "Bridge" "ovs0" "netplan/external-ids/iface-id"))
  /\ clear_setting "Bridge" "ovs0" "netplan/rstp_enable" "true"
     = (_del_col "Bridge" "ovs0" "rstp_enable" "true" ;;
        check_call (remove_tag "Bridge" "ovs0" "netplan/rstp_enable"))
  /\ (length (splitn "/" 2 "netplan/a/b/c") = 2
      \/ length (splitn "/" 2 "netplan/a/b/c") = 3).
Proof.
  split; [|split; [|split]].
  - apply (proj1 (proj2 (tag_kind_classification (env := FakeDb.env) "Bridge" "ovs0"
                           "netplan/global/set-fail-mode" "standalone"))
             "netplan" "set-fail-mode").
    reflexivity.
  - apply (proj1 (proj2 (proj2 (tag_kind_classification (env := FakeDb.env)
                                  "Bridge" "ovs0"
                                  "netplan/external-ids/iface-id" "myhostname")))
             "netplan" "external-ids" "iface-id"); [reflexivity|discriminate].
  - apply (proj1 (proj2 (proj2 (proj2 (tag_kind_classification (env := FakeDb.env)
                                         "Bridge" "ovs0"
                                         "netplan/rstp_enable" "true"))))
             "netplan" "rstp_enable").
    reflexivity.
  - apply (proj2 (proj2 (proj2 (proj2 (proj2
             (tag_kind_classification (env := FakeDb.env) "Bridge" "ovs0"
                "netplan/a/b/c" "v")))))).
    reflexivity.
Defined.

Lemma tag_dispatch_is_safe_witness :
  step2_entry "Bridge" "ovs0" "netplan=true" FakeDb.bridges
  = Outcome (inr tt) FakeDb.bridges []
  /\ step2_entry "Bridge" "ovs0" "netplan/rstp_enable" FakeDb.bridges
     = Outcome (inr tt) FakeDb.bridges []
  /\ exists setting val,
       "netplan/mcast_snooping_enable=true" = setting ++ "=" ++ val
       /\ splitn "=" 1 "netplan/mcast_snooping_enable=true" = [setting; val]
       /\ 2 <= length (splitn "/" 2 setting)
       /\ step2_entry (env := FakeDb.env) "Bridge" "ovs0"
            "netplan/mcast_snooping_enable=true"
          = clear_setting "Bridge" "ovs0" setting val.
Proof.
  split; [|split].
  - apply (proj1 (tag_dispatch_is_safe (env := FakeDb.env) "Bridge" "ovs0"
                    "netplan=true" FakeDb.bridges)).
    reflexivity.
  - apply (proj1 (proj2 (tag_dispatch_is_safe (env := FakeDb.env) "Bridge" "ovs0"
                           "netplan/rstp_enable" FakeDb.bridges))).
    reflexivity.
  - apply (proj1 (proj2 (proj2 (tag_dispatch_is_safe (env := FakeDb.env)
                                  "Bridge" "ovs0"
                                  "netplan/mcast_snooping_enable=true"
                                  FakeDb.bridges))));
      reflexivity.
Defined.

Lemma preflight_failure_signaling_witness :
  FakeDb.cleanup ["ovs0"] FakeDb.not_installed
  = Outcome (inl (OvsDbServerNotInstalled
                    "Cannot apply OpenvSwitch cleanup: ovs-vsctl is 'not-found'"))
            FakeDb.not_installed []
  /\ FakeDb.cleanup ["ovs0"] FakeDb.not_running
     = Outcome (inl (OvsDbServerNotRunning "OpenvSwitch database is not running"))
               FakeDb.not_running [Event Call [OVS_VSCTL_PATH; "show"]].
Proof.
  split.
  - apply (proj1 (preflight_failure_signaling (env := FakeDb.env)
                    (FakeDb.declares ["ovs0"]) tt tt FakeDb.not_installed)).
    reflexivity.
  - apply (proj2 (preflight_failure_signaling (env := FakeDb.env)
                    (FakeDb.declares ["ovs0"]) tt tt FakeDb.not_running)
             FakeDb.not_running 1%Z EmptyString);
      [reflexivity|reflexivity|discriminate].
Defined.

(** After the first run on the three bridges the database is settled. *)
Lemma bridges_settled_after_first_run :
  settled ["ovs0"] (world_after (FakeDb.cleanup ["ovs0"] FakeDb.bridges)).
Proof.
  assert (E : world_after (FakeDb.cleanup ["ovs0"] FakeDb.bridges)
              = FakeDb.database []
                  [ FakeDb.Row "Bridge" "ovs0" ["netplan=true"];
                    FakeDb.Row "Bridge" "legacy0" ["owner=someone-else"] ])
    by (vm_compute; reflexivity).
  rewrite E. intros w' Hq cols t.
  apply fake_queried_same in Hq. subst w'.
  rewrite fake_listing by reflexivity.
  unfold FakeDb.listing, FakeDb.database.
  cbn [FakeDb.rows filter]. unfold FakeDb.in_table. cbn [FakeDb.r_table].
  destruct (String.eqb "Bridge" t); split; vm_compute; reflexivity.
Qed.

Lemma second_run_is_quiet_witness :
  mutations (emitted (FakeDb.cleanup ["ovs0"]
                        (world_after (FakeDb.cleanup ["ovs0"] FakeDb.bridges))))
  = [].
Proof.
  apply (second_run_is_quiet (env := FakeDb.env) (FakeDb.declares ["ovs0"])
           tt tt FakeDb.bridges).
  intros w0 netdefs Hp. injection Hp as <-.
  exact bridges_settled_after_first_run.
Defined.


End Runs.

(** C7. Order of the deletions of step 1: in every run, the deletions
    started after the [Port] listing come first and are [del-port], then
    come those started after the [Bridge] listing, which are [del-br],
    then those started after the [Interface] listing, which are [del-br]
    or [del-bond-iface]; for a stale bridge, a stale port and a stale
    interface the calls are the port's, the bridge's and the
    interface's, in that order. *)
Theorem step1_deletion_order :
  (forall (env : Environment) (ovs_ifaces : list string) (w : @World env),
      exists dP dB dI,
        @deletions_by_table EmptyString (emitted (@step1 env ovs_ifaces w))
        = (map (pair "Port") dP ++ map (pair "Bridge") dB
           ++ map (pair "Interface") dI)%list
        /\ Forall (@deletes env ("Port", "del-port")) dP
        /\ Forall (@deletes env ("Bridge", "del-br")) dB
        /\ Forall (@deletes env ("Interface", "del-br")) dI)
  /\ map ev_argv (mutations (emitted (@step1 FakeDb.env [] FakeDb.stack)))
     = [ [@OVS_VSCTL_PATH FakeDb.env; "--if-exists"; "del-port"; "p0"];
         [@OVS_VSCTL_PATH FakeDb.env; "--if-exists"; "del-br"; "b0"];
         [@OVS_VSCTL_PATH FakeDb.env; "--if-exists"; "del-bond-iface"; "i0"] ].
Proof.
  split.
  - intros env ovs_ifaces w. apply step1_deletions_grouped.
  - vm_compute. reflexivity.
Qed.

(** C1. Non-interference fails in step 1: the bridge [br9], whose only
    entry is [not-netplan=true], carries no [netplan=true] entry, and
    yet step 1 starts its deletion, in every world; on the small
    database the run removes the bridge. *)
Theorem unmarked_row_is_deleted :
  existsb (String.eqb "netplan=true")
          (split " " (strip DQUOTE "not-netplan=true")) = false
  /\ (forall (env : Environment) (w : @World env),
        emitted (@step1_line env ("Bridge", "del-br") [] "br9,not-netplan=true" w)
        = [Event CheckCall [@OVS_VSCTL_PATH env; "--if-exists"; "del-br"; "br9"]])
  /\ mutations (emitted (FakeDb.cleanup [] FakeDb.foreign))
     = [Event CheckCall [@OVS_VSCTL_PATH FakeDb.env; "--if-exists"; "del-br"; "br9"]]
  /\ FakeDb.rows (world_after (FakeDb.cleanup [] FakeDb.foreign)) = [].
Proof.
  split; [reflexivity|]. split; [|split].
  - intros env w. apply step1_line_foreign.
  - vm_compute. reflexivity.
  - vm_compute. reflexivity.
Qed.

(** ** Further properties of the module *)

Section OvsFurther.

Context {env : Environment}.

(** *** Names and rows *)

Lemma cut_none (c : ascii) (s : string) :
  contains (String c EmptyString) s = false -> cut c s = None.
Proof.
  induction s as [|a s IH]; intros H; [reflexivity|].
  simpl in H. simpl. rewrite (Ascii.eqb_sym a c).
  destruct (Ascii.eqb c a); [discriminate|].
  simpl in H. rewrite (IH H). reflexivity.
Qed.

(** A text without the separator, the separator, and any text: the cut
    gives the two texts back. *)
Lemma cut_app (c : ascii) (name rest : string) :
  contains (String c EmptyString) name = false ->
  cut c (name ++ String c rest) = Some (name, rest).
Proof.
  induction name as [|a name IH]; intros H.
  - simpl. rewrite Ascii.eqb_refl. reflexivity.
  - simpl in H. simpl. rewrite (Ascii.eqb_sym a c).
    destruct (Ascii.eqb c a); [discriminate|].
    simpl in H. rewrite (IH H). reflexivity.
Qed.

Lemma split_head (c : ascii) (name rest : string) :
  contains (String c EmptyString) name = false ->
  getitem (split c (name ++ String c rest)) 0 = Some name.
Proof.
  induction name as [|a name IH]; intros H.
  - simpl. rewrite Ascii.eqb_refl. reflexivity.
  - simpl in H. simpl. rewrite (Ascii.eqb_sym a c).
    destruct (Ascii.eqb c a); [discriminate|].
    simpl in H. specialize (IH H).
    destruct (split c (name ++ String c rest)) as [|h t]; [discriminate|].
    simpl in IH. injection IH as ->. reflexivity.
Qed.

Lemma dict_get_in {V} (d : list (string * V)) (k : string) (v : V) :
  dict_get d k = Some v -> In k (map fst d).
Proof.
  induction d as [|[k' v'] d IH]; [discriminate|].
  simpl. destruct (String.eqb_spec k k') as [->|Hne].
  - intros _. left. reflexivity.
  - intros H. right. apply IH. exact H.
Qed.

Lemma declared_member (netdefs : list (string * NetplanDefinition)) (i : string) :
  is_ovs_interface i netdefs = true ->
  in_set i (declared_ovs_ifaces netdefs) = true.
Proof.
  intros Hi. unfold in_set, declared_ovs_ifaces.
  apply existsb_exists. exists i. split; [|apply String.eqb_refl].
  apply filter_In. split; [|exact Hi].
  unfold is_ovs_interface in Hi.
  destruct (dict_get netdefs i) as [d|] eqn:Hd; [|discriminate].
  exact (dict_get_in _ _ _ Hd).
Qed.

(** X1. The set [ovs_ifaces] built from [netdefs]: a name is a member
    exactly when [netdefs] has a definition for it whose backend is
    [OpenVSwitch]; a name without a definition, or with another backend,
    is not a member. *)
Theorem declared_ovs_ifaces_membership
    (netdefs : list (string * NetplanDefinition)) (i : string) :
  in_set i (declared_ovs_ifaces netdefs)
  = match dict_get netdefs i with
    | Some np_def => String.eqb (backend np_def) "OpenVSwitch"
    | None => false
    end.
Proof.
  change (in_set i (declared_ovs_ifaces netdefs) = is_ovs_interface i netdefs).
  destruct (is_ovs_interface i netdefs) eqn:Hi.
  - apply declared_member. exact Hi.
  - unfold in_set, declared_ovs_ifaces.
    destruct (existsb _ _) eqn:He; [|reflexivity].
    apply existsb_exists in He. destruct He as (x & Hin & Hx).
    apply String.eqb_eq in Hx. subst x.
    apply filter_In in Hin. destruct Hin as [_ Hin]. congruence.
Qed.

(** X2. A declared row is kept: when the name of a row (its text before
    the first comma) has a definition with the [OpenVSwitch] backend,
    step 1 starts no process for the row, marked or not, in any table. *)
Theorem declared_row_is_kept (t : string * string)
    (netdefs : list (string * NetplanDefinition)) (np_def : NetplanDefinition)
    (name rest : string) (w : World) :
  contains "," name = false ->
  dict_get netdefs name = Some np_def ->
  backend np_def = "OpenVSwitch" ->
  step1_line t (declared_ovs_ifaces netdefs) (name ++ "," ++ rest) w
  = Outcome (inr tt) w [].
Proof.
  intros Hname Hd Hb. unfold step1_line.
  destruct (contains "netplan=true" (name ++ "," ++ rest)); [|reflexivity].
  change (name ++ "," ++ rest) with (name ++ String "," rest).
  rewrite (split_head _ _ _ Hname).
  rewrite declared_member; [reflexivity|].
  unfold is_ovs_interface. rewrite Hd, Hb. reflexivity.
Qed.

(** X3. A stale row: for a marked row whose name is not declared,
    step 1 starts one [--if-exists] deletion with the command of the
    table when the table is not [Interface]; for [Interface] it first
    probes [br-exists] and then deletes with [del-bond-iface] when the
    probe's status is above zero, with [del-br] otherwise (a zero or
    negative status). *)
Theorem stale_row_commands (t : string * string) (ovs_ifaces : list string)
    (name rest : string) (w : World) :
  contains "," name = false ->
  contains "netplan=true" (name ++ "," ++ rest) = true ->
  in_set name ovs_ifaces = false ->
  emitted (step1_line t ovs_ifaces (name ++ "," ++ rest) w)
  = if String.eqb (fst t) "Interface" then
      let probe := [OVS_VSCTL_PATH; "br-exists"; name] in
      [ Event Run probe;
        Event CheckCall
          [OVS_VSCTL_PATH; "--if-exists";
           (if Z.ltb 0 (fst (snd (spawn w probe))) then "del-bond-iface" else snd t);
           name] ]
    else [Event CheckCall [OVS_VSCTL_PATH; "--if-exists"; snd t; name]].
Proof.
  intros Hname Hmark Hin. unfold step1_line. rewrite Hmark.
  change (name ++ "," ++ rest) with (name ++ String "," rest).
  rewrite (split_head _ _ _ Hname), Hin.
  destruct (String.eqb (fst t) "Interface").
  - rewrite (bind_returns _ _ w _ _ _ (br_exists_run _ w)).
    cbn [emitted app]. cbv zeta.
    destruct (Z.ltb 0 _); rewrite check_call_emitted; reflexivity.
  - rewrite (bind_returns _ _ w false w []) by reflexivity.
    cbn [emitted app]. apply check_call_emitted.
Qed.

(** *** Malformed input *)

(** X4. A setting without a slash: [clear_setting] raises [IndexError]
    at the column access and starts no process. *)
Theorem clear_setting_without_slash (type iface setting value : string) (w : World) :
  contains "/" setting = false ->
  clear_setting type iface setting value w = Outcome (inl IndexError) w [].
Proof.
  intros H. unfold clear_setting, clear_value.
  assert (Hs : splitn "/" 2 setting = [setting]).
  { cbn [splitn]. rewrite (cut_none _ _ H). reflexivity. }
  rewrite Hs. reflexivity.
Qed.

(** X5. A tagged row without a comma: in a table other than
    [Open_vSwitch] the unpacking of name and external-ids fails, so step 2
    raises [ValueError] for the row and starts no process. *)
Theorem tagged_row_without_comma (t line : string) (w : World) :
  String.eqb t "Open_vSwitch" = false ->
  contains "netplan/" line = true ->
  contains "," line = false ->
  step2_line t line w = Outcome (inl ValueError) w [].
Proof.
  intros Ht Htag Hc. unfold step2_line. rewrite Htag, Ht.
  assert (Hs : splitn "," 1 line = [line]).
  { cbn [splitn]. rewrite (cut_none _ _ Hc). reflexivity. }
  cbn [negb]. rewrite Hs. reflexivity.
Qed.

(** X6. Name and external-ids of a row: in a table other than
    [Open_vSwitch], a tagged line made of a name without a comma, a comma
    and any text is handled as the entries of that text, commas
    included, each for the object of that name. *)
Theorem row_name_and_entries (t name extids : string) (w : World) :
  String.eqb t "Open_vSwitch" = false ->
  contains "," name = false ->
  contains "netplan/" (name ++ "," ++ extids) = true ->
  step2_line t (name ++ "," ++ extids) w
  = for_each (split " " (strip DQUOTE extids)) (step2_entry t name) w.
Proof.
  intros Ht Hname Htag. unfold step2_line. rewrite Htag, Ht.
  assert (Hs : splitn "," 1 (name ++ "," ++ extids) = [name; extids]).
  { cbn [splitn]. change (name ++ "," ++ extids) with (name ++ String "," extids).
    rewrite (cut_app _ _ _ Hname). reflexivity. }
  cbn [negb]. rewrite Hs.
  rewrite (bind_returns _ _ w (name, extids) w []) by reflexivity.
  cbn [fst snd app].
  destruct (for_each _ _ w). reflexivity.
Qed.

(** The row of [Open_vSwitch]: the whole line is its external-ids,
    never cut at a comma, and every entry is handled for the object
    [.]. *)
Lemma open_vswitch_row (line : string) (w : World) :
  contains "netplan/" line = true ->
  step2_line "Open_vSwitch" line w
  = for_each (split " " (strip DQUOTE line)) (step2_entry "Open_vSwitch" ".") w.
Proof.
  intros Htag. unfold step2_line. rewrite Htag.
  replace (String.eqb "Open_vSwitch" "Open_vSwitch") with true by reflexivity.
  cbn [negb].
  rewrite (bind_returns _ _ w (".", line) w []) by reflexivity.
  cbn [fst snd app].
  destruct (for_each _ _ w). reflexivity.
Qed.

(** *** How a run can fail *)

Lemma fails_within_bind {A B} (allowed : exn -> Prop) (m : M A) (f : A -> M B)
    (w : World) :
  fails_within allowed (m w) ->
  (forall a w', fails_within allowed (f a w')) ->
  fails_within allowed (bind m f w).
Proof.
  intros Hm Hf. unfold fails_within, bind in *.
  destruct (result (m w)) as [e|a]; cbn [result emitted]; [exact Hm|].
  specialize (Hf a (world_after (m w))).
  destruct (result (f a (world_after (m w)))) as [e|b]; [|exact I].
  destruct e; try exact Hf.
  destruct Hf as (Hrc & es & k & He). split; [exact Hrc|].
  exists (emitted (m w) ++ es)%list, k. rewrite He. apply app_assoc.
Qed.

Lemma fails_within_for_each {A} (allowed : exn -> Prop) (xs : list A)
    (body : A -> M unit) :
  (forall x w, In x xs -> fails_within allowed (body x w)) ->
  forall w, fails_within allowed (for_each xs body w).
Proof.
  induction xs as [|x xs IH]; intros Hbody w; [exact I|].
  cbn [for_each]. apply fails_within_bind.
  - apply Hbody. left. reflexivity.
  - intros _ w'. apply IH. intros y w0 Hy. apply Hbody. right. exact Hy.
Qed.

Lemma fails_within_check_call (allowed : exn -> Prop) (argv : list string)
    (w : World) :
  fails_within allowed (check_call argv w).
Proof.
  unfold fails_within, check_call, bind, start.
  destruct (spawn w argv) as [w' [rc out]]. cbn [result world_after emitted fst].
  destruct (Z.eqb_spec rc 0) as [E|E]; cbn [ret raise result emitted]; [exact I|].
  split; [exact E|]. exists [], CheckCall. reflexivity.
Qed.

Lemma fails_within_check_output (allowed : exn -> Prop) (argv : list string)
    (f : string -> M unit) (w : World) :
  (forall out w', fails_within allowed (f out w')) ->
  fails_within allowed (bind (check_output argv) f w).
Proof.
  intros Hf. apply fails_within_bind; [|exact Hf].
  unfold fails_within, check_output, bind, start.
  destruct (spawn w argv) as [w' [rc out]]. cbn [result world_after emitted fst].
  destruct (Z.eqb_spec rc 0) as [E|E]; cbn [ret raise result emitted]; [exact I|].
  split; [exact E|]. exists [], CheckOutput. reflexivity.
Qed.

Lemma split_first (c : ascii) (s : string) :
  exists h, getitem (split c s) 0 = Some h.
Proof.
  induction s as [|a s [h IH]]; cbn [split].
  - eexists. reflexivity.
  - destruct (Ascii.eqb a c); [eexists; reflexivity|].
    destruct (split c s); eexists; reflexivity.
Qed.

Lemma step1_line_fails (t : string * string) (ovs_ifaces : list string)
    (line : string) (w : World) :
  fails_within no_other_error (step1_line t ovs_ifaces line w).
Proof.
  unfold step1_line.
  destruct (contains "netplan=true" line); [|exact I].
  destruct (split_first "," line) as [iface ->].
  destruct (in_set iface ovs_ifaces); [exact I|].
  apply fails_within_bind.
  - destruct (String.eqb (fst t) "Interface"); [|exact I].
    unfold fails_within. rewrite br_exists_run. exact I.
  - intros b w'. destruct b; apply fails_within_check_call.
Qed.

(** X7. Failures of step 1: step 1 returns normally or raises
    [CalledProcessError]; the error carries a non-zero status and the
    command that was started last, so nothing is started after a command
    that failed.  No other exception leaves step 1. *)
Theorem step1_fails_by_process_only (ovs_ifaces : list string) (w : World) :
  fails_within no_other_error (step1 ovs_ifaces w).
Proof.
  unfold step1. apply fails_within_for_each. intros t w' _.
  unfold step1_table. apply fails_within_check_output. intros out w0.
  apply fails_within_for_each. intros line w1 _. apply step1_line_fails.
Qed.

Lemma del_global_fails (type iface key value : string) (w : World) :
  fails_within step2_error (_del_global type iface key value w).
Proof.
  destruct (dict_get GLOBALS key) as [[d g]|] eqn:Hk.
  - rewrite (del_global_known _ _ _ _ _ _ Hk).
    apply fails_within_check_output. intros out w'.
    destruct (forallb _ _); [apply fails_within_check_call|exact I].
  - rewrite (del_global_unknown _ _ _ _ _ Hk). unfold fails_within.
    cbn [result]. right. exists key. split; [exact Hk|reflexivity].
Qed.

Lemma del_col_fails (type iface column value : string) (w : World) :
  fails_within step2_error (_del_col type iface column value w).
Proof.
  unfold _del_col. destruct (dict_get DEFAULTS column) as [d|].
  - destruct (truthy (Some d) && negb (String.eqb d value));
      [apply fails_within_check_call|exact I].
  - apply fails_within_check_call.
Qed.

Lemma step2_entry_fails (t iface entry : string) (w : World) :
  fails_within step2_error (step2_entry t iface entry w).
Proof.
  unfold step2_entry.
  destruct (startswith "netplan/" entry) eqn:Hp; [|exact I].
  destruct (contains "=" entry) eqn:Hc; [|exact I].
  destruct (tag_token_shape _ Hp Hc) as (setting & val & _ & -> & Hps).
  cbn [andb]. unfold clear_setting.
  apply fails_within_bind; [|intros; apply fails_within_check_call].
  pose proof (tag_key_parts _ Hps) as Hlen. unfold clear_value.
  destruct (splitn "/" 2 setting) as [|p0 [|col [|k rest]]];
    cbn [length] in Hlen; try lia; cbn [getitem nth_error length].
  - replace (Nat.ltb 2 2) with false by reflexivity.
    rewrite andb_false_r. apply del_col_fails.
  - replace (Nat.ltb 2 (S (S (S (length rest))))) with true by reflexivity.
    destruct (String.eqb col "global"); cbn [andb].
    + apply del_global_fails.
    + apply fails_within_check_call.
Qed.

Lemma step2_line_fails (t line : string) (w : World) :
  fails_within step2_error (step2_line t line w).
Proof.
  unfold step2_line. destruct (contains "netplan/" line); [|exact I].
  apply fails_within_bind.
  - destruct (negb (String.eqb t "Open_vSwitch")); [|exact I].
    destruct (splitn "," 1 line) as [|i [|e [|x l]]];
      try exact I; left; reflexivity.
  - intros row w'. apply fails_within_for_each. intros entry w0 _.
    apply step2_entry_fails.
Qed.

(** X8. Failures of step 2: step 2 returns normally, or raises
    [CalledProcessError] with a non-zero status and the command started
    last, or [ValueError] (a tagged row without a comma), or the
    [Exception] of a global tag whose key is not in [GLOBALS]; it never
    raises [IndexError]. *)
Theorem step2_failures (w : World) : fails_within step2_error (step2 w).
Proof.
  unfold step2. apply fails_within_for_each. intros t w' _.
  unfold step2_table. apply fails_within_check_output. intros out w0.
  apply fails_within_for_each. intros line w1 _. apply step2_line_fails.
Qed.

(** *** The commands of each step *)

Lemma bind_events {A B} (P : event -> Prop) (m : M A) (f : A -> M B) (w : World) :
  Forall P (emitted (m w)) ->
  (forall a w', Forall P (emitted (f a w'))) ->
  Forall P (emitted (bind m f w)).
Proof.
  intros Hm Hf. unfold bind.
  destruct (result (m w)) as [e|a]; cbn [emitted]; [exact Hm|].
  apply Forall_app. split; [exact Hm|apply Hf].
Qed.

Lemma for_each_events_in {A} (P : event -> Prop) (xs : list A)
    (body : A -> M unit) :
  (forall x w, In x xs -> Forall P (emitted (body x w))) ->
  forall w, Forall P (emitted (for_each xs body w)).
Proof.
  induction xs as [|x xs IH]; intros Hbody w; [constructor|].
  cbn [for_each]. apply bind_events.
  - apply Hbody. left. reflexivity.
  - intros _ w'. apply IH. intros y w0 Hy. apply Hbody. right. exact Hy.
Qed.

Lemma check_call_events (P : event -> Prop) (argv : list string) (w : World) :
  P (Event CheckCall argv) -> Forall P (emitted (check_call argv w)).
Proof. intros H. rewrite check_call_emitted. repeat constructor. exact H. Qed.

Lemma check_output_events (P : event -> Prop) (argv : list string)
    (f : string -> M unit) (w : World) :
  P (Event CheckOutput argv) ->
  (forall out w', Forall P (emitted (f out w'))) ->
  Forall P (emitted (bind (check_output argv) f w)).
Proof.
  intros H Hf. apply bind_events; [|exact Hf].
  unfold check_output, bind, start.
  destruct (spawn w argv) as [w' [rc out]]. cbn [result world_after emitted fst].
  destruct (Z.eqb rc 0); cbn [ret raise emitted app]; repeat constructor; exact H.
Qed.

(** The processes started for one line of a listing of step 1: probes
    and deletions, no listing. *)
Lemma step1_line_vocabulary (t : string * string) (ovs_ifaces : list string)
    (line : string) (w : World) :
  In t step1_tables ->
  Forall (fun e => step1_event e /\ is_listing e = false)
         (emitted (step1_line t ovs_ifaces line w)).
Proof.
  intros Ht. unfold step1_line.
  destruct (contains "netplan=true" line); [|constructor].
  destruct (getitem (split "," line) 0) as [iface|]; [|constructor].
  destruct (in_set iface ovs_ifaces); [constructor|].
  assert (Hcmd : In (snd t) ["del-port"; "del-br"; "del-bond-iface"]).
  { destruct Ht as [<-|[<-|[<-|[]]]]; cbn; auto. }
  apply bind_events.
  - destruct (String.eqb (fst t) "Interface"); [|constructor].
    rewrite br_exists_run. cbn [emitted]. repeat constructor.
  - intros b w'. destruct b; apply check_call_events;
      (split; [constructor; cbn; auto|reflexivity]).
Qed.

(** X9. The commands of step 1: every process that step 1 starts is a
    listing of [Port], [Bridge] or [Interface], a [br-exists] probe, or
    an [--if-exists] deletion by [del-port], [del-br] or
    [del-bond-iface]; step 1 never runs [remove], [set] or a global
    command. *)
Theorem step1_commands (ovs_ifaces : list string) (w : World) :
  Forall step1_event (emitted (step1 ovs_ifaces w))
  /\ Forall (fun e => exists cmd iface,
                         In cmd ["del-port"; "del-br"; "del-bond-iface"]
                         /\ ev_argv e = [OVS_VSCTL_PATH; "--if-exists"; cmd; iface])
            (mutations (emitted (step1 ovs_ifaces w))).
Proof.
  assert (H : Forall step1_event (emitted (step1 ovs_ifaces w))).
  { unfold step1. apply for_each_events_in. intros t w' Ht.
    unfold step1_table. apply check_output_events.
    - constructor. exact Ht.
    - intros out w0. apply for_each_events_in. intros line w1 _.
      eapply Forall_impl; [|apply (step1_line_vocabulary t); exact Ht].
      intros e [He _]. exact He. }
  split; [exact H|].
  apply Forall_forall. intros e Hin. unfold mutations in Hin.
  apply filter_In in Hin. destruct Hin as [Hin Hm].
  rewrite Forall_forall in H. specialize (H e Hin).
  destruct H as [t Ht|iface|cmd iface Hcmd]; try discriminate Hm.
  exists cmd, iface. split; [exact Hcmd|reflexivity].
Qed.

Lemma global_argv_not_listing (cmd d iface : string) :
  is_listing (Event CheckOutput (global_argv cmd d iface)) = false.
Proof.
  unfold global_argv, with_iface.
  destruct (String.eqb d "del-ssl"); [reflexivity|].
  destruct (truthy (Some iface)); reflexivity.
Qed.

Lemma del_global_vocabulary (type iface key value : string) (w : World) :
  Forall (fun e => step2_event e /\ is_listing e = false)
         (emitted (_del_global type iface key value w)).
Proof.
  destruct (dict_get GLOBALS key) as [[d g]|] eqn:Hk.
  - rewrite (del_global_known _ _ _ _ _ _ Hk).
    apply check_output_events.
    + split; [exact (step2_fetch key d g iface Hk)|apply global_argv_not_listing].
    + intros out w'. destruct (forallb _ _); [|constructor].
      apply check_call_events.
      split; [exact (step2_delete key d g iface Hk)|reflexivity].
  - rewrite (del_global_unknown _ _ _ _ _ Hk). constructor.
Qed.

Lemma del_col_vocabulary (type iface column value : string) (w : World) :
  Forall (fun e => step2_event e /\ is_listing e = false)
         (emitted (_del_col type iface column value w)).
Proof.
  unfold _del_col. destruct (dict_get DEFAULTS column) as [d|].
  - destruct (truthy (Some d) && negb (String.eqb d value)); [|constructor].
    apply check_call_events. split; [constructor|reflexivity].
  - apply check_call_events. split; [constructor|reflexivity].
Qed.

(** The processes of [clear_setting], for any setting. *)
Lemma clear_setting_vocabulary (type iface setting value : string) (w : World) :
  Forall (fun e => step2_event e /\ is_listing e = false)
         (emitted (clear_setting type iface setting value w)).
Proof.
  unfold clear_setting. apply bind_events.
  - unfold clear_value.
    destruct (getitem (splitn "/" 2 setting) 1) as [col|]; [|constructor].
    destruct (String.eqb col "global" && Nat.ltb 2 (length (splitn "/" 2 setting))).
    + destruct (getitem _ 2); [apply del_global_vocabulary|constructor].
    + destruct (Nat.ltb 2 (length (splitn "/" 2 setting))).
      * destruct (getitem _ 2); [|constructor].
        apply check_call_events. split; [constructor|reflexivity].
      * apply del_col_vocabulary.
  - intros _ w'. apply check_call_events. split; [constructor|reflexivity].
Qed.

Lemma step2_line_vocabulary (t line : string) (w : World) :
  Forall (fun e => step2_event e /\ is_listing e = false)
         (emitted (step2_line t line w)).
Proof.
  unfold step2_line. destruct (contains "netplan/" line); [|constructor].
  apply bind_events.
  - destruct (negb (String.eqb t "Open_vSwitch")); [|constructor].
    destruct (splitn "," 1 line) as [|i [|e [|x l]]]; constructor.
  - intros row w'. apply for_each_events_in. intros entry w0 _.
    unfold step2_entry.
    destruct (startswith "netplan/" entry && contains "=" entry); [|constructor].
    destruct (splitn "=" 1 entry) as [|k [|v [|x l]]]; try constructor.
    apply clear_setting_vocabulary.
Qed.

(** X10. The commands of step 2: every process that step 2 starts is a
    listing of one of its five tables, a [remove], a [set], or the
    [get-] or [del-] command of a key of [GLOBALS]; step 2 never deletes
    a port, a bridge or an interface. *)
Theorem step2_commands (w : World) :
  Forall step2_event (emitted (step2 w))
  /\ Forall (fun e => forall cmd iface,
                ev_argv e <> [OVS_VSCTL_PATH; "--if-exists"; cmd; iface])
            (emitted (step2 w)).
Proof.
  assert (H : Forall step2_event (emitted (step2 w))).
  { unfold step2. apply for_each_events_in. intros t w' Ht.
    unfold step2_table. apply check_output_events.
    - constructor. exact Ht.
    - intros out w0. apply for_each_events_in. intros line w1 _.
      eapply Forall_impl; [|apply step2_line_vocabulary].
      intros e [He _]. exact He. }
  split; [exact H|].
  eapply Forall_impl; [|exact H].
  intros e He cmd iface.
  destruct He as [t Ht|t i c v|t i a|key d g i Hk|key d g i Hk];
    cbn [ev_argv]; try discriminate.
  - unfold global_argv, with_iface.
    destruct (String.eqb d "del-ssl"); [discriminate|].
    destruct (truthy (Some i)); discriminate.
  - unfold global_argv, with_iface.
    destruct (String.eqb d "del-ssl"); [discriminate|].
    destruct (truthy (Some i)); discriminate.
Qed.

(** *** The listings of a run *)

Lemma listed_tables_app (xs ys : list event) :
  listed_tables (xs ++ ys) = (listed_tables xs ++ listed_tables ys)%list.
Proof. unfold listed_tables. rewrite filter_app, map_app. reflexivity. Qed.

Lemma listed_tables_none (P : event -> Prop) (es : list event) :
  Forall (fun e => P e /\ is_listing e = false) es -> listed_tables es = [].
Proof.
  induction 1 as [|e es [_ He] _ IH]; [reflexivity|].
  unfold listed_tables in *. cbn [filter]. rewrite He. exact IH.
Qed.

Lemma listing_then_lines (cols t : string) (f : string -> M unit) (P : event -> Prop)
    (w : World) :
  (forall out w', Forall (fun e => P e /\ is_listing e = false) (emitted (f out w'))) ->
  listed_tables (emitted (bind (check_output (list_cmd cols t)) f w)) = [t].
Proof.
  intros Hf. unfold check_output, start, bind.
  destruct (spawn w (list_cmd cols t)) as [w' [rc out]].
  cbn [result world_after emitted fst snd].
  destruct (Z.eqb rc 0); cbn [ret raise result world_after emitted app];
    [|reflexivity].
  change (listed_tables (?e :: ?es)) with (t :: listed_tables es).
  rewrite (listed_tables_none P _ (Hf out w')). reflexivity.
Qed.

Lemma for_each_listed {A} (name : A -> string) (xs : list A) (body : A -> M unit) :
  (forall x w, In x xs -> listed_tables (emitted (body x w)) = [name x]) ->
  forall w, exists k,
    k <= length xs
    /\ listed_tables (emitted (for_each xs body w)) = firstn k (map name xs)
    /\ (result (for_each xs body w) = inr tt -> k = length xs).
Proof.
  induction xs as [|x xs IH]; intros Hbody w.
  - exists 0. repeat split; auto.
  - cbn [for_each]. unfold bind.
    pose proof (Hbody x w (or_introl eq_refl)) as Hx.
    destruct (result (body x w)) as [e|[]]; cbn [result emitted].
    + exists 1. cbn [length]. split; [lia|]. split; [exact Hx|discriminate].
    + destruct (IH (fun y w' Hy => Hbody y w' (or_intror Hy))
                   (world_after (body x w))) as (k & Hk & Hl & Hr).
      exists (S k). cbn [length]. split; [lia|]. split.
      * rewrite listed_tables_app, Hx, Hl. reflexivity.
      * intros H. rewrite (Hr H). reflexivity.
Qed.

(** X11. The listings of a run, in order: a run lists [Port], [Bridge],
    [Interface] for step 1 and then [Port], [Bridge], [Interface],
    [Open_vSwitch], [Controller] for step 2, each once; a run that
    raises has made a front part of this sequence, a run that returns
    has made all eight listings. *)
Theorem run_listings {A B : Type} (cm : ConfigurationManager)
    (ovs_old : A) (ovs_current : B) (w : World) :
  exists k,
    listed_tables (emitted (apply_ovs_cleanup cm ovs_old ovs_current w))
    = firstn k ["Port"; "Bridge"; "Interface";
                "Port"; "Bridge"; "Interface"; "Open_vSwitch"; "Controller"]
    /\ (result (apply_ovs_cleanup cm ovs_old ovs_current w) = inr tt -> k = 8).
Proof.
  rewrite apply_ovs_cleanup_run.
  destruct (path_exists w OVS_VSCTL_PATH);
    [|exists 0; split; [reflexivity|discriminate]].
  cbv zeta. set (w1 := fst (spawn w [OVS_VSCTL_PATH; "show"])).
  destruct (Z.eqb _ 0); [|exists 0; split; [reflexivity|discriminate]].
  destruct (parse cm w1) as [e|netdefs];
    [exists 0; split; [reflexivity|discriminate]|].
  cbn [result emitted].
  change (listed_tables (?e :: ?es)) with (listed_tables es).
  destruct (for_each_listed fst step1_tables
              (step1_table (declared_ovs_ifaces netdefs))) with (w := w1)
    as (k1 & Hk1 & Hl1 & Hr1).
  { intros t w' Ht. unfold step1_table.
    apply (listing_then_lines _ _ _ step1_event). intros out w0.
    apply for_each_events_in. intros line w2 _.
    apply step1_line_vocabulary. exact Ht. }
  fold (step1 (declared_ovs_ifaces netdefs)) in Hl1, Hr1.
  unfold bind.
  destruct (result (step1 (declared_ovs_ifaces netdefs) w1)) as [e|[]];
    cbn [result emitted].
  - exists k1. split; [|discriminate]. rewrite Hl1.
    cbn [step1_tables map fst length] in *.
    destruct k1 as [|[|[|[|k1]]]]; try reflexivity. lia.
  - destruct (for_each_listed (fun t => t) step2_tables step2_table)
      with (w := world_after (step1 (declared_ovs_ifaces netdefs) w1))
      as (k2 & Hk2 & Hl2 & Hr2).
    { intros t w' Ht. unfold step2_table.
      apply (listing_then_lines _ _ _ step2_event). intros out w0.
      apply for_each_events_in. intros line w2 _.
      apply step2_line_vocabulary. }
    fold step2 in Hl2, Hr2.
    exists (3 + k2). rewrite listed_tables_app, Hl1, Hl2, (Hr1 eq_refl).
    split; [reflexivity|].
    intros H. rewrite (Hr2 H). reflexivity.
Qed.

(** *** The global settings *)

(** X12. A fetch that fails: when the [get-] command of a known global
    key exits with a non-zero status, [clear_setting] raises
    [CalledProcessError] for it; the fetch is the only process started,
    so the value is not deleted and the tag is not removed. *)
Theorem failed_fetch_stops_cleanup (type iface key value d g out : string)
    (rc : Z) (w w' : World) :
  dict_get GLOBALS key = Some (d, g) ->
  spawn w (global_argv g d iface) = (w', (rc, out)) ->
  rc <> 0%Z ->
  clear_setting type iface ("netplan/global/" ++ key) value w
  = Outcome (inl (CalledProcessError rc (global_argv g d iface))) w'
            [Event CheckOutput (global_argv g d iface)].
Proof.
  intros Hk Hs Hrc.
  assert (Hg : _del_global type iface key value w
               = Outcome (inl (CalledProcessError rc (global_argv g d iface))) w'
                         [Event CheckOutput (global_argv g d iface)]).
  { rewrite (del_global_known _ _ _ _ _ _ Hk).
    unfold check_output, start, bind. rewrite Hs.
    cbn [result world_after emitted fst snd].
    destruct (Z.eqb_spec rc 0) as [E|E]; [contradiction|]. reflexivity. }
  unfold clear_setting.
  change (clear_value type iface ("netplan/global/" ++ key) value)
    with (_del_global type iface key value).
  rewrite (bind_err _ _ _ (CalledProcessError rc (global_argv g d iface)));
    rewrite Hg; reflexivity.
Qed.

Lemma startswith_append (p s post : string) :
  startswith p s = true -> startswith p (s ++ post) = true.
Proof.
  revert s. induction p as [|a p IH]; intros s H; [reflexivity|].
  destruct s as [|b s]; [discriminate|]. simpl in *.
  apply andb_true_iff in H. destruct H as [-> H]. apply IH. exact H.
Qed.

Lemma contains_append (p s post : string) :
  contains p s = true -> contains p (s ++ post) = true.
Proof.
  induction s as [|b s IH]; intros H.
  - cbn [contains] in H. rewrite orb_false_r in H.
    destruct p; [|discriminate]. destruct post; reflexivity.
  - cbn [contains] in H. apply orb_true_iff in H. cbn [append contains].
    apply orb_true_iff. destruct H as [H|H].
    + left. apply (startswith_append p (String b s) post H).
    + right. apply IH. exact H.
Qed.

Lemma contains_prepend (p pre s : string) :
  contains p s = true -> contains p (pre ++ s) = true.
Proof.
  intros H. induction pre as [|b pre IH]; [exact H|].
  cbn [append contains]. rewrite IH. apply orb_true_r.
Qed.

(** X13. The guard tests presence only: when every token of the
    recorded value occurs in a text, the delete command is started also
    when the fetched text is that text with more before and after it
    (values that something else has added). *)
Theorem guard_tests_presence_only (type iface key value d g pre out post : string)
    (w w' : World) :
  dict_get GLOBALS key = Some (d, g) ->
  spawn w (global_argv g d iface) = (w', (0%Z, pre ++ out ++ post)) ->
  forallb (fun item => contains item out) (split "," value) = true ->
  emitted (_del_global type iface key value w)
  = [Event CheckOutput (global_argv g d iface);
     Event CheckCall (global_argv d d iface)].
Proof.
  intros Hk Hs Hall.
  destruct (del_global_fetched type iface key value d g _ w w' Hk Hs) as [He _].
  rewrite He.
  replace (forallb _ (split "," value)) with true; [reflexivity|].
  symmetry. rewrite forallb_forall in *. intros item Hin.
  apply contains_prepend, contains_append, Hall, Hin.
Qed.

(** X14. An empty recorded value: the guard holds for any fetched text,
    so the delete command is started whenever the fetch succeeds. *)
Theorem empty_value_always_deletes (type iface key d g out : string)
    (w w' : World) :
  dict_get GLOBALS key = Some (d, g) ->
  spawn w (global_argv g d iface) = (w', (0%Z, out)) ->
  emitted (_del_global type iface key EmptyString w)
  = [Event CheckOutput (global_argv g d iface);
     Event CheckCall (global_argv d d iface)].
Proof.
  intros Hk Hs.
  destruct (del_global_fetched type iface key EmptyString d g _ w w' Hk Hs)
    as [He _].
  rewrite He. cbn [split forallb]. destruct out; reflexivity.
Qed.

(** X15. The object of a global command: the commands for [set-ssl]
    never carry the object; the commands of the other keys carry it
    exactly when its name is not empty. *)
Theorem global_command_object (type iface key value d g : string) (w : World) :
  dict_get GLOBALS key = Some (d, g) ->
  let object := if String.eqb key "set-ssl" then []
                else match iface with EmptyString => [] | _ => [iface] end in
  Forall (fun e => ev_argv e = (OVS_VSCTL_PATH :: g :: object)
                   \/ ev_argv e = (OVS_VSCTL_PATH :: d :: object))
         (emitted (_del_global type iface key value w)).
Proof.
  intros Hk object.
  assert (Hargv : forall cmd, global_argv cmd d iface = OVS_VSCTL_PATH :: cmd :: object).
  { intros cmd. subst object. unfold GLOBALS in Hk. cbn [dict_get] in Hk.
    destruct (String.eqb key "set-ssl"); [injection Hk as <- <-; reflexivity|].
    destruct (String.eqb key "set-fail-mode");
      [injection Hk as <- <-; destruct iface; reflexivity|].
    destruct (String.eqb key "set-controller");
      [injection Hk as <- <-; destruct iface; reflexivity|discriminate]. }
  rewrite (del_global_known _ _ _ _ _ _ Hk).
  apply check_output_events; [left; apply Hargv|].
  intros out w'. destruct (forallb _ _); [|constructor].
  apply check_call_events. right. apply Hargv.
Qed.

(** *** The preflight and the configuration *)

(** X16. A configuration that does not parse: with the binary present
    and the server running, the run raises what [parse] raises; the
    probe is the only process started, so nothing is listed or
    changed. *)
Theorem parse_failure_stops_run {A B : Type} (cm : ConfigurationManager)
    (ovs_old : A) (ovs_current : B) (e : exn) (out : string) (w w1 : World) :
  path_exists w OVS_VSCTL_PATH = true ->
  spawn w [OVS_VSCTL_PATH; "show"] = (w1, (0%Z, out)) ->
  parse cm w1 = inl e ->
  apply_ovs_cleanup cm ovs_old ovs_current w
  = Outcome (inl e) w1 [Event Call [OVS_VSCTL_PATH; "show"]].
Proof.
  intros Hp Hs He. rewrite apply_ovs_cleanup_run, Hp, Hs.
  cbn [fst snd Z.eqb]. rewrite He. reflexivity.
Qed.

(** X17. The path is fixed at import: when there was no binary under
    [/snap/bin] at import, the run looks under [/usr/bin] only; with
    none there it raises [OvsDbServerNotInstalled] and starts no
    process, whatever is under [/snap/bin] by then. *)
Theorem path_is_fixed_at_import {A B : Type} (cm : ConfigurationManager)
    (ovs_old : A) (ovs_current : B) (w : World) :
  path_exists import_world "/snap/bin/ovs-vsctl" = false ->
  path_exists w "/usr/bin/ovs-vsctl" = false ->
  OVS_VSCTL_PATH = "/usr/bin/ovs-vsctl"
  /\ apply_ovs_cleanup cm ovs_old ovs_current w
     = Outcome (inl (OvsDbServerNotInstalled
                       "Cannot apply OpenvSwitch cleanup: ovs-vsctl is 'not-found'"))
               w [].
Proof.
  intros Hi Hw.
  assert (Hpath : OVS_VSCTL_PATH = "/usr/bin/ovs-vsctl").
  { unfold OVS_VSCTL_PATH, _ovs_vsctl_path.
    change ("/snap/bin/" ++ OPENVSWITCH_OVS_VSCTL) with "/snap/bin/ovs-vsctl".
    rewrite Hi. reflexivity. }
  split; [exact Hpath|].
  rewrite apply_ovs_cleanup_run, Hpath, Hw. reflexivity.
Qed.

(** *** Tags written and read back *)

(** X18. A row without a piece that is a tag: in a table other than
    [Open_vSwitch], when none of the pieces that step 2 cuts the
    external-ids text into at its spaces (after stripping the quotes
    around it) starts with [netplan/], step 2 starts no process for the
    row and raises nothing, also when the text [netplan/] occurs inside
    a piece.  The pieces are not the entries of the row when a value
    holds a space. *)
Theorem untagged_row_is_untouched (t name extids : string) (w : World) :
  String.eqb t "Open_vSwitch" = false ->
  contains "," name = false ->
  (forall entry, In entry (split " " (strip DQUOTE extids)) ->
     startswith "netplan/" entry = false) ->
  step2_line t (name ++ "," ++ extids) w = Outcome (inr tt) w [].
Proof.
  intros Ht Hname Hentries.
  apply (step2_line_untagged t _ name extids); [|exact Hentries].
  rewrite Ht. cbn [negb splitn].
  change (name ++ "," ++ extids) with (name ++ String "," extids).
  rewrite (cut_app _ _ _ Hname). reflexivity.
Qed.

(** X19. An entry read back: for a key that starts with [netplan/] and
    holds no equals sign, and any value (empty, or with equals signs of
    its own), the entry [key=value] is handled by [clear_setting] on
    exactly that key and that value. *)
Theorem entry_read_back (t iface setting val : string) :
  startswith "netplan/" setting = true ->
  contains "=" setting = false ->
  step2_entry t iface (setting ++ "=" ++ val) = clear_setting t iface setting val.
Proof.
  intros Hp Hc. unfold step2_entry.
  rewrite (startswith_append _ _ _ Hp).
  assert (Heq : contains "=" (setting ++ "=" ++ val) = true).
  { apply contains_prepend. reflexivity. }
  rewrite Heq. cbn [andb splitn].
  change (setting ++ "=" ++ val) with (setting ++ String "=" val).
  rewrite (cut_app _ _ _ Hc). reflexivity.
Qed.

(** X20. A tag key read back: for a column without a slash, the key
    [netplan/column] runs the scalar cleaner on that column, and the key
    [netplan/column/key] runs the map-entry cleaner on that column and
    that key, slashes inside the key included, unless the column is
    [global]; the removal of the tag follows. *)
Theorem tag_key_read_back (type iface column key value : string) :
  contains "/" column = false ->
  clear_setting type iface ("netplan/" ++ column) value
  = (_del_col type iface column value ;;
     check_call (remove_tag type iface ("netplan/" ++ column)))
  /\ (column <> "global" ->
      clear_setting type iface ("netplan/" ++ column ++ "/" ++ key) value
      = (_del_dict type iface column key value ;;
         check_call (remove_tag type iface ("netplan/" ++ column ++ "/" ++ key)))).
Proof.
  intros Hc. split.
  - unfold clear_setting, clear_value.
    change (splitn "/" 2 ("netplan/" ++ column))
      with ("netplan" :: splitn "/" 1 column).
    cbn [splitn]. rewrite (cut_none _ _ Hc).
    cbn [getitem nth_error length].
    replace (Nat.ltb 2 2) with false by reflexivity.
    rewrite andb_false_r. reflexivity.
  - intros Hne. unfold clear_setting, clear_value.
    change (splitn "/" 2 ("netplan/" ++ column ++ "/" ++ key))
      with ("netplan" :: splitn "/" 1 (column ++ String "/" key)).
    cbn [splitn]. rewrite (cut_app _ _ _ Hc).
    cbn [getitem nth_error length].
    destruct (String.eqb_spec column "global") as [E|E]; [contradiction|].
    reflexivity.
Qed.

End OvsFurther.

(** *** The further properties on concrete inputs *)

Section FurtherRuns.

#[local] Existing Instance FakeDb.env.

Lemma declared_row_is_kept_witness :
  step1_line ("Bridge", "del-br")
    (declared_ovs_ifaces [("ovs0", {| backend := "OpenVSwitch" |})])
    ("ovs0" ++ "," ++ "netplan=true") FakeDb.bridges
  = Outcome (inr tt) FakeDb.bridges [].
Proof.
  apply (declared_row_is_kept (env := FakeDb.env) ("Bridge", "del-br")
           [("ovs0", {| backend := "OpenVSwitch" |})]
           {| backend := "OpenVSwitch" |} "ovs0" "netplan=true" FakeDb.bridges);
    reflexivity.
Defined.

Lemma stale_row_commands_witness :
  emitted (step1_line ("Interface", "del-br") [] ("br0.100" ++ "," ++ "netplan=true")
             fake_bridge)
  = [ Event Run [OVS_VSCTL_PATH; "br-exists"; "br0.100"];
      Event CheckCall [OVS_VSCTL_PATH; "--if-exists"; "del-br"; "br0.100"] ]
  /\ emitted (step1_line ("Port", "del-port") [] ("p0" ++ "," ++ "netplan=true")
                FakeDb.stack)
     = [ Event CheckCall [OVS_VSCTL_PATH; "--if-exists"; "del-port"; "p0"] ].
Proof.
  split.
  - exact (stale_row_commands (env := FakeDb.env) ("Interface", "del-br") []
             "br0.100" "netplan=true" fake_bridge eq_refl eq_refl eq_refl).
  - exact (stale_row_commands (env := FakeDb.env) ("Port", "del-port") []
             "p0" "netplan=true" FakeDb.stack eq_refl eq_refl eq_refl).
Defined.

Lemma clear_setting_without_slash_witness :
  clear_setting "Bridge" "ovs0" "netplan" "true" FakeDb.bridges
  = Outcome (inl IndexError) FakeDb.bridges [].
Proof.
  apply (clear_setting_without_slash (env := FakeDb.env) "Bridge" "ovs0"
           "netplan" "true" FakeDb.bridges).
  reflexivity.
Defined.

Lemma tagged_row_without_comma_witness :
  step2_line "Bridge" "netplan/rstp_enable=true" FakeDb.bridges
  = Outcome (inl ValueError) FakeDb.bridges [].
Proof.
  apply (tagged_row_without_comma (env := FakeDb.env) "Bridge"
           "netplan/rstp_enable=true" FakeDb.bridges);
    reflexivity.
Defined.

Lemma row_name_and_entries_witness :
  step2_line "Bridge" ("ovs0" ++ "," ++ "netplan/global/set-controller=tcp:1,unix:2")
    FakeDb.bridges
  = for_each (split " " (strip DQUOTE "netplan/global/set-controller=tcp:1,unix:2"))
             (step2_entry "Bridge" "ovs0") FakeDb.bridges.
Proof.
  apply (row_name_and_entries (env := FakeDb.env) "Bridge" "ovs0"
           "netplan/global/set-controller=tcp:1,unix:2" FakeDb.bridges);
    reflexivity.
Defined.

Lemma failed_fetch_stops_cleanup_witness :
  clear_setting "Bridge" "ovs0" ("netplan/global/" ++ "set-fail-mode") "secure"
    FakeDb.not_running
  = Outcome (inl (CalledProcessError 1 [OVS_VSCTL_PATH; "get-fail-mode"; "ovs0"]))
            FakeDb.not_running
            [Event CheckOutput [OVS_VSCTL_PATH; "get-fail-mode"; "ovs0"]].
Proof.
  apply (failed_fetch_stops_cleanup (env := FakeDb.env) "Bridge" "ovs0"
           "set-fail-mode" "secure" "del-fail-mode" "get-fail-mode" EmptyString
           1%Z FakeDb.not_running FakeDb.not_running);
    [reflexivity|reflexivity|discriminate].
Defined.

Lemma guard_tests_presence_only_witness :
  emitted (_del_global "Bridge" "ovs0" "set-controller" "tcp:127.0.0.1:1337"
             FakeDb.both_controllers)
  = [Event CheckOutput [OVS_VSCTL_PATH; "get-controller"; "ovs0"];
     Event CheckCall [OVS_VSCTL_PATH; "del-controller"; "ovs0"]].
Proof.
  apply (guard_tests_presence_only (env := FakeDb.env) "Bridge" "ovs0"
           "set-controller" "tcp:127.0.0.1:1337" "del-controller" "get-controller"
           EmptyString "tcp:127.0.0.1:1337" (String LF "unix:/some/socket")
           FakeDb.both_controllers FakeDb.both_controllers);
    reflexivity.
Defined.

Lemma empty_value_always_deletes_witness :
  emitted (_del_global "Bridge" "ovs0" "set-fail-mode" EmptyString FakeDb.bridges)
  = [Event CheckOutput [OVS_VSCTL_PATH; "get-fail-mode"; "ovs0"];
     Event CheckCall [OVS_VSCTL_PATH; "del-fail-mode"; "ovs0"]].
Proof.
  apply (empty_value_always_deletes (env := FakeDb.env) "Bridge" "ovs0"
           "set-fail-mode" "del-fail-mode" "get-fail-mode" "standalone"
           FakeDb.bridges FakeDb.bridges);
    reflexivity.
Defined.

Lemma global_command_object_witness :
  Forall (fun e => ev_argv e = [OVS_VSCTL_PATH; "get-ssl"]
                   \/ ev_argv e = [OVS_VSCTL_PATH; "del-ssl"])
         (emitted (_del_global "Open_vSwitch" "." "set-ssl" "/k.pem" tagged_switch))
  /\ Forall (fun e => ev_argv e = [OVS_VSCTL_PATH; "get-controller"; "ovs0"]
                      \/ ev_argv e = [OVS_VSCTL_PATH; "del-controller"; "ovs0"])
            (emitted (_del_global "Bridge" "ovs0" "set-controller"
                        "tcp:127.0.0.1:1337" FakeDb.one_controller)).
Proof.
  split.
  - exact (global_command_object (env := FakeDb.env) "Open_vSwitch" "."
             "set-ssl" "/k.pem" "del-ssl" "get-ssl" tagged_switch eq_refl).
  - exact (global_command_object (env := FakeDb.env) "Bridge" "ovs0"
             "set-controller" "tcp:127.0.0.1:1337" "del-controller"
             "get-controller" FakeDb.one_controller eq_refl).
Defined.

Lemma parse_failure_stops_run_witness :
  apply_ovs_cleanup {| parse := fun _ => inl (ConfigError "invalid YAML") |}
    tt tt FakeDb.bridges
  = Outcome (inl (ConfigError "invalid YAML")) FakeDb.bridges
            [Event Call [OVS_VSCTL_PATH; "show"]].
Proof.
  apply (parse_failure_stops_run (env := FakeDb.env)
           {| parse := fun _ => inl (ConfigError "invalid YAML") |} tt tt
           (ConfigError "invalid YAML") EmptyString FakeDb.bridges FakeDb.bridges);
    reflexivity.
Defined.

Lemma untagged_row_is_untouched_witness :
  contains "netplan/" ("legacy0" ++ "," ++ "url=http://host/netplan/x owner=other")
  = true
  /\ step2_line "Bridge" ("legacy0" ++ "," ++ "url=http://host/netplan/x owner=other")
       FakeDb.bridges
     = Outcome (inr tt) FakeDb.bridges [].
Proof.
  split; [reflexivity|].
  apply (untagged_row_is_untouched (env := FakeDb.env) "Bridge" "legacy0"
           "url=http://host/netplan/x owner=other" FakeDb.bridges);
    [reflexivity|reflexivity|].
  intros entry [<-|[<-|[]]]; reflexivity.
Defined.

(** The pieces are cut at every space: a row whose single entry
    [note] has the value [see netplan/other_config=y] has the piece
    [netplan/other_config=y], and step 2 removes for it as for a tag. *)
Example value_with_space_is_cut :
  step2_line "Bridge" ("legacy0" ++ "," ++ "note=see netplan/other_config=y")
    FakeDb.foreign
  = Outcome (inr tt) FakeDb.foreign
      [Event CheckCall [OVS_VSCTL_PATH; "remove"; "Bridge"; "legacy0";
                        "other_config"; "y"];
       Event CheckCall [OVS_VSCTL_PATH; "remove"; "Bridge"; "legacy0";
                        "external-ids"; "netplan/other_config"]].
Proof. vm_compute. reflexivity. Qed.

Lemma entry_read_back_witness :
  step2_entry (env := FakeDb.env) "Bridge" "ovs0"
    ("netplan/other_config/disable-in-band" ++ "=" ++ "a=b")
  = clear_setting "Bridge" "ovs0" "netplan/other_config/disable-in-band" "a=b".
Proof.
  apply (entry_read_back (env := FakeDb.env) "Bridge" "ovs0"
           "netplan/other_config/disable-in-band" "a=b");
    reflexivity.
Defined.

Lemma tag_key_read_back_witness :
  clear_setting (env := FakeDb.env) "Interface" "patch0"
    ("netplan/" ++ "options" ++ "/" ++ "peer/x") "patch1"
  = (_del_dict "Interface" "patch0" "options" "peer/x" "patch1" ;;
     check_call (remove_tag "Interface" "patch0"
                   ("netplan/" ++ "options" ++ "/" ++ "peer/x"))).
Proof.
  apply (proj2 (tag_key_read_back (env := FakeDb.env) "Interface" "patch0"
                  "options" "peer/x" "patch1" eq_refl)).
  discriminate.
Defined.

End FurtherRuns.

Lemma path_is_fixed_at_import_witness :
  @path_exists late_snap true "/snap/bin/ovs-vsctl" = true
  /\ @OVS_VSCTL_PATH late_snap = "/usr/bin/ovs-vsctl"
  /\ @apply_ovs_cleanup late_snap unit unit {| parse := fun _ => inr [] |} tt tt true
     = @Outcome late_snap unit
         (inl (OvsDbServerNotInstalled
                 "Cannot apply OpenvSwitch cleanup: ovs-vsctl is 'not-found'"))
         true [].
Proof.
  split; [reflexivity|].
  apply (path_is_fixed_at_import (env := late_snap)
           {| parse := fun _ => inr [] |} tt tt true);
    reflexivity.
Defined.


(** ** Two runs in a row *)

Section Idempotence.

Context {env : Environment}.

(** *** The worlds of a run *)
















(** *** What the commands leave *)






(** *** The first run *)












(** *** The second run *)







End Idempotence.

(** ** Two runs on the database of two bridges *)




